(** * A shallow embedding of the Morpheus Terraform provider resources

    Resources modelled: the helm spec template ([resource_helm_spec_template.go]),
    the workflow catalog item ([resource_workflow_catalog_item.go]) and the
    Ansible Tower integration ([resource_ansible_tower_integration.go]).

    A Terraform [*schema.ResourceData] is a record holding the identifier and
    the attribute values, both the prior ([Old]) and the current ([New]) ones:
    [d.Get] reads [New], [d.Set] writes [New], [d.HasChange] compares [Old]
    with [New].  The remote Morpheus API is an abstract client: a record of
    functions over an abstract server state, one per SDK method called by the
    source.  Every remote call is appended to a call log, so statements can talk
    about which requests the provider issued. *)

From Stdlib Require Import ZArith List String Ascii Bool Lia.
From Stdlib Require Import Decimal DecimalString DecimalZ.
Import ListNotations.
Open Scope Z_scope.
Open Scope string_scope.
Open Scope list_scope.
Set Warnings "-register-all".

(** ** JSON request bodies ([map[string]interface{}]) *)

Inductive json : Type :=
| JNull
| JBool (b : bool)
| JNum (z : Z)
| JStr (s : string)
| JArr (l : list json)
| JObj (kv : list (string * json)).

(** [m[k] = v] on a Go map: overwrite the key if present, add it otherwise. *)
Fixpoint jset (k : string) (v : json) (m : list (string * json)) : list (string * json) :=
  match m with
  | [] => [(k, v)]
  | (k', v') :: m' => if String.eqb k k' then (k, v) :: m' else (k', v') :: jset k v m'
  end.

(** [m[k]] with the [ok] flag of Go's two-value map lookup. *)
Fixpoint jget (k : string) (m : list (string * json)) : option json :=
  match m with
  | [] => None
  | (k', v') :: m' => if String.eqb k k' then Some v' else jget k m'
  end.

Definition jfield (k : string) (j : json) : option json :=
  match j with JObj m => jget k m | _ => None end.

(** ** Identifiers: [int64ToString] / [intToString] and [toInt64]

    Decimal rendering as Go's [strconv.FormatInt]; parsing as
    [strconv.ParseInt] with the error dropped (an unparsable id reads as 0). *)

Definition int64ToString (z : Z) : string := NilZero.string_of_int (Z.to_int z).
Definition intToString (z : Z) : string := int64ToString z.

Definition toInt64 (s : string) : Z :=
  match NilZero.int_of_string s with
  | Some i => Z.of_int i
  | None => 0
  end.

(** ** Diagnostics

    [diag.Diagnostics] as the list of error summaries it carries: the empty
    list is success, [diag.FromErr err] and [diag.Errorf msg] are singletons. *)

Definition Diagnostics := list string.

(** ** Remote calls

    The result of an SDK call [resp, err := client.X(...)]: either no error and
    a typed result, or an error together with the status code of the response
    when there is one ([resp != nil]). *)

Inductive ApiCall (R : Type) : Type :=
| ApiOk (result : R)
| ApiErr (status : option Z) (err : string).
Arguments ApiOk {R} result.
Arguments ApiErr {R} status err.

(** One entry of the call log: the SDK method name and its arguments. *)
Record Call : Type := mkCall { fn : string; args : list json }.

(** ** ResourceData and the provider monad *)

Record RD (A : Type) : Type := mkRD { Id : string; Old : A; New : A }.
Arguments mkRD {A} Id Old New.
Arguments Id {A} r.
Arguments Old {A} r.
Arguments New {A} r.

Record World (A S : Type) : Type := mkWorld { w_d : RD A; w_srv : S; w_log : list Call }.
Arguments mkWorld {A S} w_d w_srv w_log.
Arguments w_d {A S} w.
Arguments w_srv {A S} w.
Arguments w_log {A S} w.

Definition M (A S R : Type) : Type := World A S -> R * World A S.

Definition ret {A S R} (x : R) : M A S R := fun w => (x, w).
Definition bind {A S R T} (m : M A S R) (k : R -> M A S T) : M A S T :=
  fun w => let (x, w') := m w in k x w'.

Notation "x <- m ;; k" := (bind m (fun x => k))
  (at level 61, m at next level, right associativity).
Notation "m ;;; k" := (bind m (fun _ => k))
  (at level 61, right associativity).

(** [d] itself. *)
Definition getD {A S} : M A S (RD A) := fun w => (w_d w, w).

(** [d.SetId(id)] *)
Definition SetId {A S} (id : string) : M A S unit :=
  fun w => (tt, mkWorld (mkRD id (Old (w_d w)) (New (w_d w))) (w_srv w) (w_log w)).

(** [d.Set(...)] for one attribute: [f] rewrites the current attributes. *)
Definition SetAttr {A S} (f : A -> A) : M A S unit :=
  fun w => (tt, mkWorld (mkRD (Id (w_d w)) (Old (w_d w)) (f (New (w_d w)))) (w_srv w) (w_log w)).

(** A call of the SDK: logged, then run against the server. *)
Definition call {A S R} (name : string) (a : list json) (f : S -> S * ApiCall R)
  : M A S (ApiCall R) :=
  fun w => let (s', r) := f (w_srv w) in
           (r, mkWorld (w_d w) s' (w_log w ++ [mkCall name a])).

(** [d.Set] of an [interface{}] JSON value into a string attribute: a string is
    stored, [nil] clears the attribute, any other value is refused by the SDK
    (the returned error is ignored by the source, the attribute is kept). *)
Definition set_string_json (j : json) (old : string) : string :=
  match j with
  | JStr s => s
  | JNull => ""
  | _ => old
  end.

(** ** Strings helpers of the Go standard library *)

(** The last element of [strings.Split(s, "/")]. *)
Fixpoint last_segment_acc (s acc : string) : string :=
  match s with
  | EmptyString => acc
  | String c s' =>
      if Ascii.eqb c "/" then last_segment_acc s' "" else last_segment_acc s' (acc ++ String c "")
  end.
Definition last_split_slash (s : string) : string := last_segment_acc s "".

(** [strings.Replace(s, old, "", 1)]: remove the first occurrence of [old]. *)
Fixpoint remove_first (old s : string) : string :=
  match s with
  | EmptyString => EmptyString
  | String c s' =>
      if String.prefix old s then substring (String.length old) (String.length s) s
      else String c (remove_first old s')
  end.

(** ** SHA-256 ([crypto/sha256]) and hex encoding ([encoding/hex])

    Bytes are [Z] values in [0, 256); 32-bit words are [Z] values reduced
    modulo [2^32] after every addition. *)

Module SHA256.

Definition mask32 (x : Z) : Z := Z.land x 4294967295.
Definition add32 (x y : Z) : Z := mask32 (x + y).
Definition rotr (x : Z) (n : Z) : Z :=
  Z.lor (Z.shiftr x n) (mask32 (Z.shiftl x (32 - n))).

Definition Ch (x y z : Z) : Z := Z.lxor (Z.land x y) (Z.land (Z.lxor x 4294967295) z).
Definition Maj (x y z : Z) : Z := Z.lxor (Z.lxor (Z.land x y) (Z.land x z)) (Z.land y z).
Definition Sigma0 (x : Z) : Z := Z.lxor (Z.lxor (rotr x 2) (rotr x 13)) (rotr x 22).
Definition Sigma1 (x : Z) : Z := Z.lxor (Z.lxor (rotr x 6) (rotr x 11)) (rotr x 25).
Definition sigma0 (x : Z) : Z := Z.lxor (Z.lxor (rotr x 7) (rotr x 18)) (Z.shiftr x 3).
Definition sigma1 (x : Z) : Z := Z.lxor (Z.lxor (rotr x 17) (rotr x 19)) (Z.shiftr x 10).

(** The constants of FIPS 180-4: the first 32 bits of the fractional parts
    of the square roots (initial hash value) and cube roots (round constants)
    of the first primes. *)
Definition is_prime (p : nat) : bool :=
  forallb (fun k => negb (Nat.eqb (Nat.modulo p k) 0)) (seq 2 (p - 2)).

Definition primes (n : nat) : list Z :=
  map Z.of_nat (firstn n (filter is_prime (seq 2 400))).

(** [icbrt_search fuel lo hi x] is the integer cube root of [x] when
    [lo^3 <= x < hi^3]. *)
Fixpoint icbrt_search (fuel : nat) (lo hi x : Z) : Z :=
  match fuel with
  | O => lo
  | S fuel' =>
      if Z.leb (hi - lo) 1 then lo
      else let m := (lo + hi) / 2 in
           if Z.leb (m * m * m) x then icbrt_search fuel' m hi x else icbrt_search fuel' lo m x
  end.

Definition icbrt (x : Z) : Z := icbrt_search 200 0 (Z.shiftl 1 (Z.log2 x / 3 + 1)) x.

Definition K : list Z := map (fun p => mask32 (icbrt (Z.shiftl p 96))) (primes 64).

(** The eight working / chaining variables. *)
Record H8 : Type := mkH8 { a : Z; b : Z; c : Z; d : Z; e : Z; f : Z; g : Z; h : Z }.

Definition H0 : H8 :=
  let iv := map (fun p => mask32 (Z.sqrt (Z.shiftl p 64))) (primes 8) in
  mkH8 (nth 0 iv 0) (nth 1 iv 0) (nth 2 iv 0) (nth 3 iv 0)
       (nth 4 iv 0) (nth 5 iv 0) (nth 6 iv 0) (nth 7 iv 0).

Definition round (s : H8) (kw : Z * Z) : H8 :=
  let (k, w) := kw in
  let t1 := add32 (add32 (add32 (add32 (h s) (Sigma1 (e s))) (Ch (e s) (f s) (g s))) k) w in
  let t2 := add32 (Sigma0 (a s)) (Maj (a s) (b s) (c s)) in
  mkH8 (add32 t1 t2) (a s) (b s) (c s) (add32 (d s) t1) (e s) (f s) (g s).

(** Big-endian word [i] of a 64-byte block. *)
Definition be_word (blk : list Z) (i : nat) : Z :=
  let byte j := nth (4 * i + j) blk 0 in
  Z.lor (Z.shiftl (byte 0%nat) 24)
   (Z.lor (Z.shiftl (byte 1%nat) 16) (Z.lor (Z.shiftl (byte 2%nat) 8) (byte 3%nat))).

(** The message schedule, built in reverse: the head is the latest word. *)
Fixpoint extend (n : nat) (rw : list Z) : list Z :=
  match n with
  | O => rw
  | S n' =>
      let w := add32 (add32 (add32 (sigma1 (nth 1 rw 0)) (nth 6 rw 0)) (sigma0 (nth 14 rw 0)))
                     (nth 15 rw 0) in
      extend n' (w :: rw)
  end.

Definition schedule (blk : list Z) : list Z :=
  List.rev (extend 48 (List.rev (map (be_word blk) (seq 0 16)))).

Definition compress (hs : H8) (blk : list Z) : H8 :=
  let s := fold_left round (combine K (schedule blk)) hs in
  mkH8 (add32 (a hs) (a s)) (add32 (b hs) (b s)) (add32 (c hs) (c s)) (add32 (d hs) (d s))
       (add32 (e hs) (e s)) (add32 (f hs) (f s)) (add32 (g hs) (g s)) (add32 (h hs) (h s)).

Fixpoint blocks (fuel : nat) (m : list Z) : list (list Z) :=
  match fuel with
  | O => []
  | S fuel' => match m with [] => [] | _ => firstn 64 m :: blocks fuel' (skipn 64 m) end
  end.

Definition be_bytes (n : nat) (x : Z) : list Z :=
  map (fun i => Z.land (Z.shiftr x (8 * Z.of_nat (n - 1 - i))) 255) (seq 0 n).

Definition pad (m : list Z) : list Z :=
  let l := List.length m in
  let k := ((64 + 55 - (l mod 64)) mod 64)%nat in
  m ++ [128] ++ repeat 0 k ++ be_bytes 8 (8 * Z.of_nat l).

Definition digest_bytes (s : H8) : list Z :=
  be_bytes 4 (a s) ++ be_bytes 4 (b s) ++ be_bytes 4 (c s) ++ be_bytes 4 (d s) ++
  be_bytes 4 (e s) ++ be_bytes 4 (f s) ++ be_bytes 4 (g s) ++ be_bytes 4 (h s).

(** [sha256.Sum256] / [h.Write(m); h.Sum(nil)] *)
Definition sum (m : list Z) : list Z :=
  let p := pad m in digest_bytes (fold_left compress (blocks (List.length p) p) H0).

End SHA256.

(** [[]byte(s)] of a Go string: its bytes. *)
Definition bytes_of_string (s : string) : list Z :=
  map (fun c => Z.of_nat (nat_of_ascii c)) (list_ascii_of_string s).

Definition hex_digit (n : Z) : ascii :=
  if Z.ltb n 10 then ascii_of_nat (48 + Z.to_nat n) else ascii_of_nat (87 + Z.to_nat n).

(** [hex.EncodeToString]: two lower-case hex digits per byte. *)
Fixpoint EncodeToString (bs : list Z) : string :=
  match bs with
  | [] => EmptyString
  | x :: bs' => String (hex_digit (Z.shiftr x 4)) (String (hex_digit (Z.land x 15)) (EncodeToString bs'))
  end.

(** The digest computed by the password [DiffSuppressFunc]. *)
Definition sha256_hex (s : string) : string := EncodeToString (SHA256.sum (bytes_of_string s)).

Example sha256_hex_empty :
  sha256_hex "" = "e3b0c44298fc1c149afbf4c8996fb92427ae41e4649b934ca495991b7852b855".
Proof. vm_compute. reflexivity. Qed.

Example sha256_hex_abc :
  sha256_hex "abc" = "ba7816bf8f01cfea414140de5dae2223b00361a396177a9cb410ff61f20015ad".
Proof. vm_compute. reflexivity. Qed.

Example sha256_hex_two_blocks :
  sha256_hex "abcdbcdecdefdefgefghfghighijhijkijkljklmklmnlmnomnopnopq"
  = "248d6a61d20638b8e5c026930c3e6039a33ce45964ff2167f6ecedd419db06c1".
Proof. vm_compute. reflexivity. Qed.

(** [strings.EqualFold] on the ASCII range: letters compared without case.
    Go folds some non-ASCII runes onto ASCII letters ('K' with the Kelvin
    sign, 's' with the long s); no such rune folds onto a hex digit, so on an
    argument that is a hex string the two agree. *)
Definition is_upper (c : ascii) : bool :=
  (Nat.leb 65 (nat_of_ascii c)) && (Nat.leb (nat_of_ascii c) 90).

Definition fold_ascii (c : ascii) : ascii :=
  if is_upper c then ascii_of_nat (nat_of_ascii c + 32) else c.

Fixpoint EqualFold (s t : string) : bool :=
  match s, t with
  | EmptyString, EmptyString => true
  | String c s', String c' t' => Ascii.eqb (fold_ascii c) (fold_ascii c') && EqualFold s' t'
  | _, _ => false
  end.

(** The [DiffSuppressFunc] of the Ansible Tower integration's [password]
    attribute ([k] and [d] are not used by its body). *)
Definition passwordDiffSuppress (old new : string) : bool :=
  EqualFold old (EncodeToString (SHA256.sum (bytes_of_string new))).

(** [resp != nil && resp.StatusCode == 404] *)
Definition is404 (status : option Z) : bool :=
  match status with Some c => Z.eqb c 404 | None => false end.

(** ** The helm spec template ([resource_helm_spec_template.go]) *)

Module Helm.

(** The attributes of the schema ([id] is [RD.Id]). *)
Record Attrs : Type := mkAttrs {
  name : string;
  source_type : string;
  spec_content : string;
  spec_path : string;
  repository_id : Z;
  version_ref : string }.

Definition set_name v (x : Attrs) :=
  mkAttrs v (source_type x) (spec_content x) (spec_path x) (repository_id x) (version_ref x).
Definition set_source_type v (x : Attrs) :=
  mkAttrs (name x) v (spec_content x) (spec_path x) (repository_id x) (version_ref x).
Definition set_spec_content v (x : Attrs) :=
  mkAttrs (name x) (source_type x) v (spec_path x) (repository_id x) (version_ref x).
Definition set_spec_path v (x : Attrs) :=
  mkAttrs (name x) (source_type x) (spec_content x) v (repository_id x) (version_ref x).
Definition set_repository_id v (x : Attrs) :=
  mkAttrs (name x) (source_type x) (spec_content x) (spec_path x) v (version_ref x).
Definition set_version_ref v (x : Attrs) :=
  mkAttrs (name x) (source_type x) (spec_content x) (spec_path x) (repository_id x) v.

(** The fields of [HelmSpecTemplate] read by the provider ([interface{}]
    fields are JSON values). *)
Record File_ : Type := mkFile {
  Sourcetype : string;
  Contentref : json;
  Contentpath : json;
  RepositoryID : Z;
  Content : string }.

Record Spectemplate : Type := mkSpectemplate { ID : Z; Name : string; File : File_ }.

(** The SDK methods used.  [CreateSpecTemplate] and [UpdateSpecTemplate]
    return [SpecTemplate.ID] of their typed result; [GetSpecTemplate] and
    [FindSpecTemplateByName] return the outcome of [json.Unmarshal] of the
    response body ([None] when it fails). *)
Record Client (S : Type) : Type := mkClient {
  CreateSpecTemplate : json -> S -> S * ApiCall Z;
  GetSpecTemplate : Z -> S -> S * ApiCall (option Spectemplate);
  FindSpecTemplateByName : string -> S -> S * ApiCall (option Spectemplate);
  UpdateSpecTemplate : Z -> json -> S -> S * ApiCall Z;
  DeleteSpecTemplate : Z -> S -> S * ApiCall unit }.
Arguments CreateSpecTemplate {S} c _ _.
Arguments GetSpecTemplate {S} c _ _.
Arguments FindSpecTemplateByName {S} c _ _.
Arguments UpdateSpecTemplate {S} c _ _ _.
Arguments DeleteSpecTemplate {S} c _ _.

(** [sourceOptions], built identically by create and update. *)
Definition sourceOptions (x : Attrs) : list (string * json) :=
  let so := jset "sourceType" (JStr (source_type x)) [] in
  if String.eqb (source_type x) "local" then
    jset "contentPath" (JStr (spec_path x)) (jset "content" (JStr (spec_content x)) so)
  else if String.eqb (source_type x) "url" then
    jset "contentPath" (JStr (spec_path x)) (jset "content" (JStr (spec_content x)) so)
  else if String.eqb (source_type x) "repository" then
    jset "repository" (JObj (jset "id" (JNum (repository_id x)) []))
      (jset "contentRef" (JStr (version_ref x)) (jset "contentPath" (JStr (spec_path x)) so))
  else so.

(** [req.Body] *)
Definition requestBody (x : Attrs) : json :=
  JObj [("specTemplate",
         JObj [("name", JStr (name x)); ("file", JObj (sourceOptions x));
               ("type", JObj (jset "code" (JStr "helm") []))])].

Section Ops.
Variable S : Type.
Variable client : Client S.

(** The part of [resourceHelmSpecTemplateRead] after the lookup. *)
Definition readResponse (r : ApiCall (option Spectemplate)) : M Attrs S Diagnostics :=
  match r with
  | ApiErr st err => if is404 st then SetId "" ;;; ret [] else ret [err]
  | ApiOk None => ret ["json: cannot unmarshal response body"]
  | ApiOk (Some t) =>
      let fl := File t in
      SetId (intToString (ID t)) ;;;
      SetAttr (set_name (Name t)) ;;;
      SetAttr (set_source_type (Sourcetype fl)) ;;;
      (if String.eqb (Sourcetype fl) "local" then
         SetAttr (set_source_type "local") ;;;
         SetAttr (set_spec_content (Content fl))
       else if String.eqb (Sourcetype fl) "url" then
         SetAttr (set_source_type "url") ;;;
         SetAttr (fun x => set_spec_path (set_string_json (Contentpath fl) (spec_path x)) x)
       else if String.eqb (Sourcetype fl) "git" then
         SetAttr (set_source_type "repository") ;;;
         SetAttr (fun x => set_spec_path (set_string_json (Contentpath fl) (spec_path x)) x) ;;;
         SetAttr (set_repository_id (RepositoryID fl)) ;;;
         SetAttr (fun x => set_version_ref (set_string_json (Contentref fl) (version_ref x)) x)
       else ret tt) ;;;
      ret []
  end.

Definition resourceHelmSpecTemplateRead : M Attrs S Diagnostics :=
  d <- getD ;;
  let id := Id d in
  let nm := name (New d) in
  if String.eqb id "" && negb (String.eqb nm "") then
    r <- call "FindSpecTemplateByName" [JStr nm] (FindSpecTemplateByName client nm) ;;
    readResponse r
  else if negb (String.eqb id "") then
    r <- call "GetSpecTemplate" [JNum (toInt64 id)] (GetSpecTemplate client (toInt64 id)) ;;
    readResponse r
  else ret ["Spec template cannot be read without name or id"].

Definition resourceHelmSpecTemplateCreate : M Attrs S Diagnostics :=
  d <- getD ;;
  let req := requestBody (New d) in
  resp <- call "CreateSpecTemplate" [req] (CreateSpecTemplate client req) ;;
  match resp with
  | ApiErr _ err => ret [err]
  | ApiOk sid =>
      SetId (int64ToString sid) ;;;
      resourceHelmSpecTemplateRead ;;;
      ret []
  end.

Definition resourceHelmSpecTemplateUpdate : M Attrs S Diagnostics :=
  d <- getD ;;
  let id := Id d in
  let req := requestBody (New d) in
  resp <- call "UpdateSpecTemplate" [JNum (toInt64 id); req] (UpdateSpecTemplate client (toInt64 id) req) ;;
  match resp with
  | ApiErr _ err => ret [err]
  | ApiOk sid => SetId (int64ToString sid) ;;; resourceHelmSpecTemplateRead
  end.

Definition resourceHelmSpecTemplateDelete : M Attrs S Diagnostics :=
  d <- getD ;;
  let id := Id d in
  resp <- call "DeleteSpecTemplate" [JNum (toInt64 id)] (DeleteSpecTemplate client (toInt64 id)) ;;
  match resp with
  | ApiErr st err => if is404 st then ret [] else ret [err]
  | ApiOk _ => SetId "" ;;; ret []
  end.

End Ops.
End Helm.

(** ** The workflow catalog item ([resource_workflow_catalog_item.go]) *)

Module WorkflowCatalogItem.

Record Attrs : Type := mkAttrs {
  name : string;
  labels : list string;
  description : string;
  category : string;
  enabled : bool;
  featured : bool;
  workflow_id : Z;
  context_type : string;
  content : string;
  option_type_ids : list Z;
  logo_image_name : string;
  logo_image_path : string;
  dark_logo_image_name : string;
  dark_logo_image_path : string;
  visibility : string;
  form_id : Z }.

(** The fields of the SDK's [CatalogItem] read by the provider; [OptionTypes]
    holds the [id] of each option type object. *)
Record CatalogItem : Type := mkCatalogItem {
  ID : Z;
  Name : string;
  Labels : list string;
  Description : string;
  Category : string;
  Enabled : bool;
  Featured : bool;
  OptionTypes : list Z;
  Content : string;
  Context : string;
  Visibility : string;
  FormID : Z;
  WorkflowID : Z;
  ImagePath : string;
  DarkImagePath : string }.

(** [morpheus.FilePayload] *)
Record FilePayload : Type := mkFilePayload {
  ParameterName : string; FileName : string; FileContent : list Z }.

Definition filePayloadJson (p : FilePayload) : json :=
  JObj [("ParameterName", JStr (ParameterName p)); ("FileName", JStr (FileName p));
        ("FileContent", JArr (map JNum (FileContent p)))].

Record Client (S : Type) : Type := mkClient {
  CreateCatalogItem : json -> S -> S * ApiCall Z;
  GetCatalogItem : Z -> S -> S * ApiCall CatalogItem;
  FindCatalogItemByName : string -> S -> S * ApiCall CatalogItem;
  UpdateCatalogItem : Z -> json -> S -> S * ApiCall Z;
  UpdateCatalogItemLogo : Z -> list FilePayload -> S -> S * ApiCall unit;
  DeleteCatalogItem : Z -> S -> S * ApiCall unit }.
Arguments CreateCatalogItem {S} c _ _.
Arguments GetCatalogItem {S} c _ _.
Arguments FindCatalogItemByName {S} c _ _.
Arguments UpdateCatalogItem {S} c _ _ _.
Arguments UpdateCatalogItemLogo {S} c _ _ _.
Arguments DeleteCatalogItem {S} c _ _.

(** [labelsPayload]: the labels when [d.GetOk("labels")] holds (a non-empty
    set), an empty list otherwise. *)
Definition labelsPayload (x : Attrs) : list json :=
  match labels x with
  | [] => []
  | l => map JStr l
  end.

Definition formPart (x : Attrs) (ci : list (string * json)) : list (string * json) :=
  if Z.ltb 0 (form_id x) then
    jset "form" (JObj (jset "id" (JNum (form_id x)) [])) (jset "formType" (JStr "form") ci)
  else ci.

(** [catalogItem] of [resourceWorkflowCatalogItemCreate]. *)
Definition createCatalogItem (x : Attrs) : list (string * json) :=
  let ci := jset "name" (JStr (name x)) [] in
  let ci := jset "description" (JStr (description x)) ci in
  let ci := jset "category" (JStr (category x)) ci in
  let ci := jset "enabled" (JBool (enabled x)) ci in
  let ci := jset "featured" (JBool (featured x)) ci in
  let ci := jset "type" (JStr "workflow") ci in
  let ci := jset "iconPath" (JStr "custom") ci in
  let ci := jset "context" (JStr (context_type x)) ci in
  let ci := jset "optionTypes" (JArr (map JNum (option_type_ids x))) ci in
  let ci := jset "content" (JStr (content x)) ci in
  let ci := jset "visibility" (JStr (visibility x)) ci in
  let ci := jset "workflow" (JObj (jset "id" (JNum (workflow_id x)) [])) ci in
  let ci := jset "labels" (JArr (labelsPayload x)) ci in
  formPart x ci.

(** [catalogItem] of [resourceWorkflowCatalogItemUpdate]. *)
Definition updateCatalogItem (x : Attrs) : list (string * json) :=
  let ci := jset "name" (JStr (name x)) [] in
  let ci := jset "labels" (JArr (labelsPayload x)) ci in
  let ci := jset "description" (JStr (description x)) ci in
  let ci := jset "category" (JStr (category x)) ci in
  let ci := jset "enabled" (JBool (enabled x)) ci in
  let ci := jset "featured" (JBool (featured x)) ci in
  let ci := jset "type" (JStr "workflow") ci in
  let ci := jset "context" (JStr (context_type x)) ci in
  let ci := jset "optionTypes" (JArr (map JNum (option_type_ids x))) ci in
  let ci := jset "content" (JStr (content x)) ci in
  let ci := jset "visibility" (JStr (visibility x)) ci in
  let ci := jset "workflow" (JObj (jset "id" (JNum (workflow_id x)) [])) ci in
  formPart x ci.

Definition wrapBody (ci : list (string * json)) : json := JObj [("catalogItemType", JObj ci)].

(** [d.HasChange(k)] for an attribute read by [f]. *)
Definition HasChange {T} (eqb : T -> T -> bool) (f : Attrs -> T) (d : RD Attrs) : bool :=
  negb (eqb (f (Old d)) (f (New d))).

(** The observed state written by a successful read. *)
Definition observe (ci : CatalogItem) (x : Attrs) : Attrs :=
  mkAttrs (Name ci) (Labels ci) (Description ci) (Category ci) (Enabled ci) (Featured ci)
    (WorkflowID ci) (Context ci) (Content ci) (OptionTypes ci)
    (remove_first "_original" (last_split_slash (ImagePath ci)))
    (logo_image_path x)
    (remove_first "_original" (last_split_slash (DarkImagePath ci)))
    (dark_logo_image_path x)
    (Visibility ci) (FormID ci).

Section Ops.
Variable S : Type.
Variable client : Client S.
(** [os.ReadFile]: the content of a file, [None] when it cannot be read. *)
Variable ReadFile : string -> option (list Z).

Definition readFileErr (path : string) : string := "open " ++ path ++ ": cannot read file".

(** One logo entry of [filePayloads], when [cond] holds. *)
Definition logoPayload (cond : bool) (param path fname : string)
  : sum string (list FilePayload) :=
  if cond then
    match ReadFile path with
    | None => inl (readFileErr path)
    | Some data => inr [mkFilePayload param fname data]
    end
  else inr [].

Definition appendPayloads (p1 : sum string (list FilePayload)) (p2 : unit -> sum string (list FilePayload))
  : sum string (list FilePayload) :=
  match p1 with
  | inl e => inl e
  | inr l1 => match p2 tt with inl e => inl e | inr l2 => inr (l1 ++ l2) end
  end.

(** [filePayloads] of create: a logo is uploaded when both its path and name are set. *)
Definition createFilePayloads (x : Attrs) : sum string (list FilePayload) :=
  appendPayloads
    (logoPayload (negb (String.eqb (logo_image_path x) "") && negb (String.eqb (logo_image_name x) ""))
       "logo" (logo_image_path x) (logo_image_name x))
    (fun _ => logoPayload
       (negb (String.eqb (dark_logo_image_path x) "") && negb (String.eqb (dark_logo_image_name x) ""))
       "darkLogo" (dark_logo_image_path x) (dark_logo_image_name x)).

(** [filePayloads] of update: a logo is uploaded when its path or name changed. *)
Definition updateFilePayloads (d : RD Attrs) : sum string (list FilePayload) :=
  let x := New d in
  appendPayloads
    (logoPayload (HasChange String.eqb logo_image_path d || HasChange String.eqb logo_image_name d)
       "logo" (logo_image_path x) (logo_image_name x))
    (fun _ => logoPayload
       (HasChange String.eqb dark_logo_image_path d || HasChange String.eqb dark_logo_image_name d)
       "darkLogo" (dark_logo_image_path x) (dark_logo_image_name x)).

Definition readResponse (r : ApiCall CatalogItem) : M Attrs S Diagnostics :=
  match r with
  | ApiErr st err => if is404 st then SetId "" ;;; ret [] else ret [err]
  | ApiOk ci => SetId (intToString (ID ci)) ;;; SetAttr (observe ci) ;;; ret []
  end.

Definition resourceWorkflowCatalogItemRead : M Attrs S Diagnostics :=
  d <- getD ;;
  let id := Id d in
  let nm := name (New d) in
  if String.eqb id "" && negb (String.eqb nm "") then
    r <- call "FindCatalogItemByName" [JStr nm] (FindCatalogItemByName client nm) ;;
    readResponse r
  else if negb (String.eqb id "") then
    r <- call "GetCatalogItem" [JNum (toInt64 id)] (GetCatalogItem client (toInt64 id)) ;;
    readResponse r
  else ret ["Catalog Item cannot be read without name or id"].

(** The logo upload: its error is only logged. *)
Definition uploadLogos (cid : Z) (fps : list FilePayload) : M Attrs S (ApiCall unit) :=
  call "UpdateCatalogItemLogo" [JNum cid; JArr (map filePayloadJson fps)]
    (UpdateCatalogItemLogo client cid fps).

Definition resourceWorkflowCatalogItemCreate : M Attrs S Diagnostics :=
  d <- getD ;;
  let req := wrapBody (createCatalogItem (New d)) in
  resp <- call "CreateCatalogItem" [req] (CreateCatalogItem client req) ;;
  match resp with
  | ApiErr _ err => ret [err]
  | ApiOk cid =>
      match createFilePayloads (New d) with
      | inl err => ret [err]
      | inr fps =>
          uploadLogos cid fps ;;;
          SetId (int64ToString cid) ;;;
          resourceWorkflowCatalogItemRead ;;;
          ret []
      end
  end.

Definition resourceWorkflowCatalogItemUpdate : M Attrs S Diagnostics :=
  d <- getD ;;
  let id := Id d in
  let req := wrapBody (updateCatalogItem (New d)) in
  resp <- call "UpdateCatalogItem" [JNum (toInt64 id); req] (UpdateCatalogItem client (toInt64 id) req) ;;
  match resp with
  | ApiErr _ err => ret [err]
  | ApiOk cid =>
      match updateFilePayloads d with
      | inl err => ret [err]
      | inr fps =>
          uploadLogos cid fps ;;;
          SetId (int64ToString cid) ;;;
          resourceWorkflowCatalogItemRead
      end
  end.

Definition resourceWorkflowCatalogItemDelete : M Attrs S Diagnostics :=
  d <- getD ;;
  let id := Id d in
  resp <- call "DeleteCatalogItem" [JNum (toInt64 id)] (DeleteCatalogItem client (toInt64 id)) ;;
  match resp with
  | ApiErr st err => if is404 st then ret [err] else ret [err]
  | ApiOk _ => SetId "" ;;; ret []
  end.

End Ops.
End WorkflowCatalogItem.

(** ** The Ansible Tower integration ([resource_ansible_tower_integration.go]) *)

Module AnsibleTower.

Record Attrs : Type := mkAttrs {
  name : string;
  enabled : bool;
  url : string;
  username : string;
  password : string;
  credential_id : Z }.

(** The fields of the SDK's [Integration] read by the provider. *)
Record Integration : Type := mkIntegration {
  ID : Z;
  Name : string;
  Enabled : bool;
  URL : string;
  CredentialID : Z;
  Username : string;
  PasswordHash : string }.

Record Client (S : Type) : Type := mkClient {
  CreateIntegration : json -> S -> S * ApiCall Z;
  GetIntegration : Z -> S -> S * ApiCall Integration;
  FindIntegrationByName : string -> S -> S * ApiCall Integration;
  UpdateIntegration : Z -> json -> S -> S * ApiCall Z;
  DeleteIntegration : Z -> S -> S * ApiCall unit }.
Arguments CreateIntegration {S} c _ _.
Arguments GetIntegration {S} c _ _.
Arguments FindIntegrationByName {S} c _ _.
Arguments UpdateIntegration {S} c _ _ _.
Arguments DeleteIntegration {S} c _ _.

(** [integration] of [resourceAnsibleTowerIntegrationCreate].  In the
    [credential_id != 0] branch the [credential] map is assigned to its own
    ["credential"] key ([credential["credential"] = credential]) and is never
    stored into [integration]: the map is a dead local value. *)
Definition createIntegration (x : Attrs) : list (string * json) :=
  let i := jset "name" (JStr (name x)) [] in
  let i := jset "enabled" (JBool (enabled x)) i in
  let i := jset "type" (JStr "ansibleTower") i in
  let i := jset "serviceVersion" (JStr "v2") i in
  let i :=
    if negb (Z.eqb (credential_id x) 0) then
      let credential := jset "id" (JNum (credential_id x))
                          (jset "type" (JStr "username-password") []) in
      let _unused_credential := jset "credential" (JObj credential) credential in
      i
    else
      let credential := jset "type" (JStr "local") [] in
      let i := jset "credential" (JObj credential) i in
      let i := jset "serviceUsername" (JStr (username x)) i in
      jset "servicePassword" (JStr (password x)) i in
  jset "serviceUrl" (JStr (url x)) i.

(** [d.HasChange(k)] for an attribute read by [f]. *)
Definition HasChange {T} (eqb : T -> T -> bool) (f : Attrs -> T) (d : RD Attrs) : bool :=
  negb (eqb (f (Old d)) (f (New d))).

(** [integration] of [resourceAnsibleTowerIntegrationUpdate]. *)
Definition updateIntegration (d : RD Attrs) : list (string * json) :=
  let x := New d in
  let i := jset "name" (JStr (name x)) [] in
  let i := jset "enabled" (JBool (enabled x)) i in
  let i := jset "type" (JStr "ansibleTower") i in
  let i := jset "serviceVersion" (JStr "v2") i in
  let i := jset "serviceUrl" (JStr (url x)) i in
  if negb (Z.eqb (credential_id x) 0) then
    let credential := jset "id" (JNum (credential_id x))
                        (jset "type" (JStr "username-password") []) in
    jset "credential" (JObj credential) i
  else
    let credential := jset "type" (JStr "local") [] in
    let i := jset "credential" (JObj credential) i in
    let i := if HasChange String.eqb username d
             then jset "serviceUsername" (JStr (username x)) i else i in
    if HasChange String.eqb password d
    then jset "servicePassword" (JStr (password x)) i else i.

Definition wrapBody (i : list (string * json)) : json := JObj [("integration", JObj i)].

(** The observed state written by a successful read: exactly one of the two
    credential groups is written. *)
Definition observe (it : Integration) (x : Attrs) : Attrs :=
  if Z.eqb (CredentialID it) 0 then
    mkAttrs (Name it) (Enabled it) (URL it) (Username it) (PasswordHash it) (credential_id x)
  else
    mkAttrs (Name it) (Enabled it) (URL it) (username x) (password x) (CredentialID it).

Section Ops.
Variable S : Type.
Variable client : Client S.

Definition readResponse (r : ApiCall Integration) : M Attrs S Diagnostics :=
  match r with
  | ApiErr st err => if is404 st then SetId "" ;;; ret [] else ret [err]
  | ApiOk it => SetId (int64ToString (ID it)) ;;; SetAttr (observe it) ;;; ret []
  end.

Definition resourceAnsibleTowerIntegrationRead : M Attrs S Diagnostics :=
  d <- getD ;;
  let id := Id d in
  let nm := name (New d) in
  if String.eqb id "" && negb (String.eqb nm "") then
    r <- call "FindIntegrationByName" [JStr nm] (FindIntegrationByName client nm) ;;
    readResponse r
  else if negb (String.eqb id "") then
    r <- call "GetIntegration" [JNum (toInt64 id)] (GetIntegration client (toInt64 id)) ;;
    readResponse r
  else ret ["Integration cannot be read without name or id"].

Definition resourceAnsibleTowerIntegrationCreate : M Attrs S Diagnostics :=
  d <- getD ;;
  let req := wrapBody (createIntegration (New d)) in
  resp <- call "CreateIntegration" [req] (CreateIntegration client req) ;;
  match resp with
  | ApiErr _ err => ret [err]
  | ApiOk iid =>
      SetId (int64ToString iid) ;;;
      resourceAnsibleTowerIntegrationRead ;;;
      ret []
  end.

Definition resourceAnsibleTowerIntegrationUpdate : M Attrs S Diagnostics :=
  d <- getD ;;
  let id := Id d in
  let req := wrapBody (updateIntegration d) in
  resp <- call "UpdateIntegration" [JNum (toInt64 id); req] (UpdateIntegration client (toInt64 id) req) ;;
  match resp with
  | ApiErr _ err => ret [err]
  | ApiOk iid => SetId (int64ToString iid) ;;; resourceAnsibleTowerIntegrationRead
  end.

Definition resourceAnsibleTowerIntegrationDelete : M Attrs S Diagnostics :=
  d <- getD ;;
  let id := Id d in
  resp <- call "DeleteIntegration" [JNum (toInt64 id)] (DeleteIntegration client (toInt64 id)) ;;
  match resp with
  | ApiErr st err => if is404 st then ret [err] else ret [err]
  | ApiOk _ => SetId "" ;;; ret []
  end.

End Ops.
End AnsibleTower.

(** ** Reference servers

    The remote Morpheus API is not part of the provider.  For the round-trip
    properties we use servers that store the fields of each request they
    receive and return them unchanged.  The helm server reports the source
    type it was sent, except that it may rename ["repository"] to [repoTag]
    (the provider's read maps ["git"] back to ["repository"]); the integration
    server keeps the SHA-256 hex digest of [servicePassword] as the password
    hash, the digest the password's [DiffSuppressFunc] compares with; the
    catalog server stores an uploaded logo under its file name. *)

Definition str_of (o : option json) : string :=
  match o with Some (JStr s) => s | _ => "" end.
Definition num_of (o : option json) : Z :=
  match o with Some (JNum z) => z | _ => 0 end.
Definition bool_of (o : option json) : bool :=
  match o with Some (JBool b) => b | _ => false end.
Definition json_of (o : option json) : json :=
  match o with Some j => j | None => JNull end.

Record Store (T : Type) : Type := mkStore { next : Z; items : list T }.
Arguments mkStore {T} next items.
Arguments next {T} s.
Arguments items {T} s.

Definition notFound {R} : ApiCall R := ApiErr (Some 404) "404 Not Found".

Module HelmServer.
Import Helm.

Definition decode (repoTag : string) (sid : Z) (body : json) : Spectemplate :=
  let st := json_of (jfield "specTemplate" body) in
  let fl := json_of (jfield "file" st) in
  let stype := str_of (jfield "sourceType" fl) in
  mkSpectemplate sid (str_of (jfield "name" st))
    (mkFile (if String.eqb stype "repository" then repoTag else stype)
            (json_of (jfield "contentRef" fl)) (json_of (jfield "contentPath" fl))
            (num_of (jfield "id" (json_of (jfield "repository" fl))))
            (str_of (jfield "content" fl))).

Definition lookup (sid : Z) (s : Store Spectemplate) : option Spectemplate :=
  find (fun t => Z.eqb (ID t) sid) (items s).

Definition client (repoTag : string) : Client (Store Spectemplate) :=
  mkClient _
    (fun body s => (mkStore (next s + 1) (decode repoTag (next s) body :: items s), ApiOk (next s)))
    (fun sid s => (s, match lookup sid s with Some t => ApiOk (Some t) | None => notFound end))
    (fun nm s => (s, match find (fun t => String.eqb (Name t) nm) (items s) with
                     | Some t => ApiOk (Some t) | None => notFound end))
    (fun sid body s =>
       match lookup sid s with
       | Some _ => (mkStore (next s) (decode repoTag sid body
                      :: filter (fun t => negb (Z.eqb (ID t) sid)) (items s)), ApiOk sid)
       | None => (s, notFound)
       end)
    (fun sid s =>
       match lookup sid s with
       | Some _ => (mkStore (next s) (filter (fun t => negb (Z.eqb (ID t) sid)) (items s)), ApiOk tt)
       | None => (s, notFound)
       end).

End HelmServer.

Module AnsibleServer.
Import AnsibleTower.

Definition decode (iid : Z) (body : json) : Integration :=
  let i := json_of (jfield "integration" body) in
  mkIntegration iid (str_of (jfield "name" i)) (bool_of (jfield "enabled" i))
    (str_of (jfield "serviceUrl" i))
    (num_of (jfield "id" (json_of (jfield "credential" i))))
    (str_of (jfield "serviceUsername" i))
    (match jfield "servicePassword" i with Some (JStr p) => sha256_hex p | _ => "" end).

Definition lookup (iid : Z) (s : Store Integration) : option Integration :=
  find (fun t => Z.eqb (ID t) iid) (items s).

Definition client : Client (Store Integration) :=
  mkClient _
    (fun body s => (mkStore (next s + 1) (decode (next s) body :: items s), ApiOk (next s)))
    (fun iid s => (s, match lookup iid s with Some t => ApiOk t | None => notFound end))
    (fun nm s => (s, match find (fun t => String.eqb (Name t) nm) (items s) with
                     | Some t => ApiOk t | None => notFound end))
    (fun iid body s =>
       match lookup iid s with
       | Some _ => (mkStore (next s) (decode iid body
                      :: filter (fun t => negb (Z.eqb (ID t) iid)) (items s)), ApiOk iid)
       | None => (s, notFound)
       end)
    (fun iid s =>
       match lookup iid s with
       | Some _ => (mkStore (next s) (filter (fun t => negb (Z.eqb (ID t) iid)) (items s)), ApiOk tt)
       | None => (s, notFound)
       end).

End AnsibleServer.

Module CatalogServer.
Import WorkflowCatalogItem.

Definition strs_of (o : option json) : list string :=
  match o with Some (JArr l) => map (fun j => str_of (Some j)) l | _ => [] end.
Definition nums_of (o : option json) : list Z :=
  match o with Some (JArr l) => map (fun j => num_of (Some j)) l | _ => [] end.

(** A stored catalog item: the fields of the request, no logo yet. *)
Definition decode (cid : Z) (body : json) : CatalogItem :=
  let ci := json_of (jfield "catalogItemType" body) in
  mkCatalogItem cid (str_of (jfield "name" ci)) (strs_of (jfield "labels" ci))
    (str_of (jfield "description" ci)) (str_of (jfield "category" ci))
    (bool_of (jfield "enabled" ci)) (bool_of (jfield "featured" ci))
    (nums_of (jfield "optionTypes" ci)) (str_of (jfield "content" ci))
    (str_of (jfield "context" ci)) (str_of (jfield "visibility" ci))
    (num_of (jfield "id" (json_of (jfield "form" ci))))
    (num_of (jfield "id" (json_of (jfield "workflow" ci)))) "" "".

(** The image paths of [t] carried over to [u]. *)
Definition withImages (t u : CatalogItem) : CatalogItem :=
  mkCatalogItem (ID u) (Name u) (Labels u) (Description u) (Category u) (Enabled u)
    (Featured u) (OptionTypes u) (Content u) (Context u) (Visibility u) (FormID u)
    (WorkflowID u) (ImagePath t) (DarkImagePath t).

(** An uploaded logo is stored under its file name. *)
Definition setLogo (t : CatalogItem) (p : FilePayload) : CatalogItem :=
  let path := String.append "/storage/logos/" (FileName p) in
  mkCatalogItem (ID t) (Name t) (Labels t) (Description t) (Category t) (Enabled t)
    (Featured t) (OptionTypes t) (Content t) (Context t) (Visibility t) (FormID t)
    (WorkflowID t)
    (if String.eqb (ParameterName p) "logo" then path else ImagePath t)
    (if String.eqb (ParameterName p) "darkLogo" then path else DarkImagePath t).

Definition lookup (cid : Z) (s : Store CatalogItem) : option CatalogItem :=
  find (fun t => Z.eqb (ID t) cid) (items s).

Definition replace (cid : Z) (t : CatalogItem) (s : Store CatalogItem) : Store CatalogItem :=
  mkStore (next s) (t :: filter (fun u => negb (Z.eqb (ID u) cid)) (items s)).

Definition client : Client (Store CatalogItem) :=
  mkClient _
    (fun body s => (mkStore (next s + 1) (decode (next s) body :: items s), ApiOk (next s)))
    (fun cid s => (s, match lookup cid s with Some t => ApiOk t | None => notFound end))
    (fun nm s => (s, match find (fun t => String.eqb (Name t) nm) (items s) with
                     | Some t => ApiOk t | None => notFound end))
    (fun cid body s =>
       match lookup cid s with
       | Some t => (replace cid (withImages t (decode cid body)) s, ApiOk cid)
       | None => (s, notFound)
       end)
    (fun cid fps s =>
       match lookup cid s with
       | Some t => (replace cid (fold_left setLogo fps t) s, ApiOk tt)
       | None => (s, notFound)
       end)
    (fun cid s =>
       match lookup cid s with
       | Some _ => (mkStore (next s) (filter (fun t => negb (Z.eqb (ID t) cid)) (items s)), ApiOk tt)
       | None => (s, notFound)
       end).

End CatalogServer.

(** ** Servers whose entity is gone: every request is answered with 404. *)

Definition helmGone : Helm.Client unit :=
  Helm.mkClient unit (fun _ s => (s, notFound)) (fun _ s => (s, notFound))
    (fun _ s => (s, notFound)) (fun _ _ s => (s, notFound)) (fun _ s => (s, notFound)).

Definition catalogGone : WorkflowCatalogItem.Client unit :=
  WorkflowCatalogItem.mkClient unit (fun _ s => (s, notFound)) (fun _ s => (s, notFound))
    (fun _ s => (s, notFound)) (fun _ _ s => (s, notFound)) (fun _ _ s => (s, notFound))
    (fun _ s => (s, notFound)).

Definition towerGone : AnsibleTower.Client unit :=
  AnsibleTower.mkClient unit (fun _ s => (s, notFound)) (fun _ s => (s, notFound))
    (fun _ s => (s, notFound)) (fun _ _ s => (s, notFound)) (fun _ s => (s, notFound)).

(** An integration server that knows one integration, with the given credential ID. *)
Definition towerOne (credId : Z) : AnsibleTower.Client unit :=
  AnsibleTower.mkClient unit (fun _ s => (s, notFound))
    (fun iid s => (s, ApiOk (AnsibleTower.mkIntegration iid "tower" true "https://tower.example.com"
                               credId "admin" (sha256_hex "secret"))))
    (fun _ s => (s, notFound)) (fun _ _ s => (s, notFound)) (fun _ s => (s, notFound)).

(** A catalog server that accepts the create (identifier 7), fails every logo
    upload with a 500 response and answers lookups with a fixed item. *)
Definition catalogLogoFails : WorkflowCatalogItem.Client unit :=
  WorkflowCatalogItem.mkClient unit
    (fun _ s => (s, ApiOk 7))
    (fun cid s => (s, ApiOk (WorkflowCatalogItem.mkCatalogItem cid "item" [] "" "" true false []
                               "" "instance" "public" 0 3 "" "")))
    (fun _ s => (s, notFound)) (fun _ _ s => (s, notFound))
    (fun _ _ s => (s, ApiErr (Some 500) "500 Internal Server Error"))
    (fun _ s => (s, notFound)).

(** A file system in which every file holds the two bytes 137, 80. *)
Definition someFiles (path : string) : option (list Z) := Some [137; 80].

(** ** Servers that answer every request with a 500 response. *)

Definition serverError {R} : ApiCall R := ApiErr (Some 500) "500 Internal Server Error".

Definition helmFails : Helm.Client unit :=
  Helm.mkClient unit (fun _ s => (s, serverError)) (fun _ s => (s, serverError))
    (fun _ s => (s, serverError)) (fun _ _ s => (s, serverError)) (fun _ s => (s, serverError)).

Definition catalogFails : WorkflowCatalogItem.Client unit :=
  WorkflowCatalogItem.mkClient unit (fun _ s => (s, serverError)) (fun _ s => (s, serverError))
    (fun _ s => (s, serverError)) (fun _ _ s => (s, serverError)) (fun _ _ s => (s, serverError))
    (fun _ s => (s, serverError)).

Definition towerFails : AnsibleTower.Client unit :=
  AnsibleTower.mkClient unit (fun _ s => (s, serverError)) (fun _ s => (s, serverError))
    (fun _ s => (s, serverError)) (fun _ _ s => (s, serverError)) (fun _ s => (s, serverError)).

(** A file system in which no file can be read. *)
Definition noFiles (path : string) : option (list Z) := None.

(** Sample attribute values. *)
Definition helmEmpty : Helm.Attrs := Helm.mkAttrs "" "" "" "" 0 "".
Definition catalogEmpty : WorkflowCatalogItem.Attrs :=
  WorkflowCatalogItem.mkAttrs "" [] "" "" false false 0 "" "" [] "" "" "" "" "" 0.
Definition towerEmpty : AnsibleTower.Attrs := AnsibleTower.mkAttrs "" false "" "" "" 0.

(** * Proofs *)

(** ** Identifiers *)

Lemma int64ToString_nonempty (z : Z) : int64ToString z <> "".
Proof.
  unfold int64ToString, NilZero.string_of_int, NilZero.string_of_uint.
  destruct (Z.to_int z) as [u|u]; [destruct u|]; discriminate.
Qed.

Lemma toInt64_int64ToString (z : Z) : toInt64 (int64ToString z) = z.
Proof.
  unfold toInt64, int64ToString.
  pose proof (DecimalZ.of_to z) as E.
  rewrite NilZero.isi.
  - exact E.
  - intro H. rewrite H in E. simpl in E. subst z. discriminate H.
  - intro H. rewrite H in E. simpl in E. subst z. discriminate H.
Qed.

(** ** Case folding and hex digests *)

Lemma EqualFold_refl (s : string) : EqualFold s s = true.
Proof.
  induction s as [|c s IH]; simpl; [reflexivity|].
  rewrite Ascii.eqb_refl, IH. reflexivity.
Qed.

Lemma EqualFold_no_upper (s t : string) :
  Forall (fun c => is_upper c = false) (list_ascii_of_string s) ->
  Forall (fun c => is_upper c = false) (list_ascii_of_string t) ->
  EqualFold s t = true -> s = t.
Proof.
  revert t; induction s as [|c s IH]; intros [|c' t] Hs Ht H; simpl in *;
    try discriminate; [reflexivity|].
  inversion Hs as [|? ? Hc Hs']; subst. inversion Ht as [|? ? Hc' Ht']; subst.
  apply andb_prop in H as [Hcc H].
  unfold fold_ascii in Hcc. rewrite Hc, Hc' in Hcc.
  apply Ascii.eqb_eq in Hcc. subst c'.
  f_equal. apply IH; assumption.
Qed.

Lemma hex_digit_no_upper (n : Z) : 0 <= n < 16 -> is_upper (hex_digit n) = false.
Proof.
  intro Hn. unfold is_upper, hex_digit.
  destruct (Z.ltb_spec n 10) as [Hl|Hl]; rewrite Ascii.nat_ascii_embedding by lia.
  - replace (Nat.leb 65 (48 + Z.to_nat n)) with false; [reflexivity|].
    symmetry. apply Nat.leb_gt. lia.
  - replace (Nat.leb (87 + Z.to_nat n) 90) with false; [apply andb_false_r|].
    symmetry. apply Nat.leb_gt. lia.
Qed.

Lemma byte_range_land (y : Z) : 0 <= Z.land y 255 < 256.
Proof.
  change 255 with (Z.ones 8). rewrite Z.land_ones by lia.
  apply Z.mod_pos_bound. lia.
Qed.

Lemma EncodeToString_no_upper (bs : list Z) :
  Forall (fun x => 0 <= x < 256) bs ->
  Forall (fun c => is_upper c = false) (list_ascii_of_string (EncodeToString bs)).
Proof.
  induction bs as [|x bs IH]; intro H; simpl; [constructor|].
  inversion H as [|? ? Hx Hbs]; subst.
  constructor; [|constructor; [|apply IH; exact Hbs]]; apply hex_digit_no_upper.
  - rewrite Z.shiftr_div_pow2 by lia. change (2 ^ 4) with 16.
    split; [apply Z.div_pos; lia | apply Z.div_lt_upper_bound; lia].
  - change 15 with (Z.ones 4). rewrite Z.land_ones by lia. apply Z.mod_pos_bound. lia.
Qed.

Lemma EncodeToString_length (bs : list Z) :
  String.length (EncodeToString bs) = (2 * List.length bs)%nat.
Proof. induction bs as [|x bs IH]; simpl; [reflexivity|]. rewrite IH. lia. Qed.

Lemma be_bytes_range (n : nat) (x : Z) : Forall (fun y => 0 <= y < 256) (SHA256.be_bytes n x).
Proof.
  unfold SHA256.be_bytes. apply Forall_forall. intros y Hy.
  apply in_map_iff in Hy as [i [<- _]]. apply byte_range_land.
Qed.

Lemma be_bytes_length (n : nat) (x : Z) : List.length (SHA256.be_bytes n x) = n.
Proof. unfold SHA256.be_bytes. rewrite length_map, length_seq. reflexivity. Qed.

Lemma sum_range (m : list Z) : Forall (fun y => 0 <= y < 256) (SHA256.sum m).
Proof.
  unfold SHA256.sum, SHA256.digest_bytes.
  repeat (apply Forall_app; split); apply be_bytes_range.
Qed.

Lemma sum_length (m : list Z) : List.length (SHA256.sum m) = 32%nat.
Proof.
  unfold SHA256.sum, SHA256.digest_bytes.
  repeat rewrite length_app. rewrite !be_bytes_length. reflexivity.
Qed.

(** ** The password diff suppression *)

(** C2: the password [DiffSuppressFunc] computes the 64-character lower-case
    hex encoding of the SHA-256 digest of the new value and compares it with
    the stored value without case: a stored digest [D = hash(S)] suppresses
    the diff for [S], and for any [S'] whose digest differs from [D] the diff
    is not suppressed. *)
Theorem password_diff_suppress_digest :
  (forall S, String.length (sha256_hex S) = 64%nat) /\
  (forall S, passwordDiffSuppress (sha256_hex S) S = true) /\
  (forall S S', sha256_hex S' <> sha256_hex S ->
                passwordDiffSuppress (sha256_hex S) S' = false).
Proof.
  split; [|split].
  - intro S. unfold sha256_hex. rewrite EncodeToString_length, sum_length. reflexivity.
  - intro S. unfold passwordDiffSuppress, sha256_hex. apply EqualFold_refl.
  - intros S S' Hne. unfold passwordDiffSuppress.
    destruct (EqualFold (sha256_hex S) _) eqn:E; [|reflexivity].
    exfalso. apply Hne. symmetry.
    apply EqualFold_no_upper; [unfold sha256_hex; apply EncodeToString_no_upper, sum_range ..|].
    exact E.
Qed.

Lemma password_diff_suppress_digest_witness :
  sha256_hex "hunter2" <> sha256_hex "secret" /\
  passwordDiffSuppress (sha256_hex "secret") "hunter2" = false.
Proof.
  assert (H : sha256_hex "hunter2" <> sha256_hex "secret")
    by (vm_compute; discriminate).
  split; [exact H|].
  exact (proj2 (proj2 password_diff_suppress_digest) "secret" "hunter2" H).
Defined.

(** ** Delete and not-found *)

Ltac unfold_monad :=
  cbv beta iota zeta delta [bind getD call SetId SetAttr ret].

Ltac run_op H := unfold_monad; rewrite H; cbn.

(** C3: a 404 response to the delete request is success for the helm spec
    template and an error (the SDK error itself) for the workflow catalog item
    and the Ansible Tower integration. *)
Theorem delete_not_found_policy :
  (forall S (cl : Helm.Client S) (w : World Helm.Attrs S) s' e,
     Helm.DeleteSpecTemplate cl (toInt64 (Id (w_d w))) (w_srv w) = (s', ApiErr (Some 404) e) ->
     fst (Helm.resourceHelmSpecTemplateDelete S cl w) = []) /\
  (forall S (cl : WorkflowCatalogItem.Client S) (w : World WorkflowCatalogItem.Attrs S) s' e,
     WorkflowCatalogItem.DeleteCatalogItem cl (toInt64 (Id (w_d w))) (w_srv w)
       = (s', ApiErr (Some 404) e) ->
     fst (WorkflowCatalogItem.resourceWorkflowCatalogItemDelete S cl w) = [e]) /\
  (forall S (cl : AnsibleTower.Client S) (w : World AnsibleTower.Attrs S) s' e,
     AnsibleTower.DeleteIntegration cl (toInt64 (Id (w_d w))) (w_srv w)
       = (s', ApiErr (Some 404) e) ->
     fst (AnsibleTower.resourceAnsibleTowerIntegrationDelete S cl w) = [e]).
Proof.
  split; [|split]; intros S cl w s' e H.
  - unfold Helm.resourceHelmSpecTemplateDelete. run_op H. reflexivity.
  - unfold WorkflowCatalogItem.resourceWorkflowCatalogItemDelete. run_op H. reflexivity.
  - unfold AnsibleTower.resourceAnsibleTowerIntegrationDelete. run_op H. reflexivity.
Qed.

Lemma delete_not_found_policy_witness :
  fst (Helm.resourceHelmSpecTemplateDelete unit helmGone (mkWorld (mkRD "3" helmEmpty helmEmpty) tt []))
    = [] /\
  fst (WorkflowCatalogItem.resourceWorkflowCatalogItemDelete unit catalogGone
         (mkWorld (mkRD "3" catalogEmpty catalogEmpty) tt [])) = ["404 Not Found"] /\
  fst (AnsibleTower.resourceAnsibleTowerIntegrationDelete unit towerGone
         (mkWorld (mkRD "3" towerEmpty towerEmpty) tt [])) = ["404 Not Found"].
Proof.
  destruct delete_not_found_policy as [H1 [H2 H3]].
  split; [|split].
  - apply (H1 unit helmGone _ tt "404 Not Found"). reflexivity.
  - apply (H2 unit catalogGone _ tt "404 Not Found"). reflexivity.
  - apply (H3 unit towerGone _ tt "404 Not Found"). reflexivity.
Defined.

(** ** Read: dispatch and not-found *)

(** The lookup path taken by a read, rewritten into the goal. *)
Ltac take_path Hid Hnm :=
  first
    [ rewrite Hid, (proj2 (String.eqb_neq _ _) Hnm)
    | rewrite (proj2 (String.eqb_neq _ _) Hid) ];
  cbn [andb negb String.eqb Ascii.eqb Bool.eqb].

Ltac read_error_case :=
  intros S cl w s' st e [[Hid [Hnm H]] | [Hid H]];
  unfold_monad;
  [ take_path Hid Hnm | take_path Hid Hid ];
  rewrite H; cbn beta iota zeta;
  (destruct (is404 st); split; intro; try discriminate; cbn; auto).

(** C4: when the lookup of a read (by name when there is no identifier, by
    identifier otherwise) fails with a 404 response, the read succeeds and
    clears the identifier; when it fails with any other status (or with no
    response), the read returns the error.  For each of the three kinds. *)
Theorem read_not_found_clears_id :
  (forall S (cl : Helm.Client S) (w : World Helm.Attrs S) s' st e,
     (Id (w_d w) = "" /\ Helm.name (New (w_d w)) <> "" /\
      Helm.FindSpecTemplateByName cl (Helm.name (New (w_d w))) (w_srv w) = (s', ApiErr st e)) \/
     (Id (w_d w) <> "" /\
      Helm.GetSpecTemplate cl (toInt64 (Id (w_d w))) (w_srv w) = (s', ApiErr st e)) ->
     (is404 st = true ->
        fst (Helm.resourceHelmSpecTemplateRead S cl w) = [] /\
        Id (w_d (snd (Helm.resourceHelmSpecTemplateRead S cl w))) = "") /\
     (is404 st = false -> fst (Helm.resourceHelmSpecTemplateRead S cl w) = [e])) /\
  (forall S (cl : WorkflowCatalogItem.Client S) (w : World WorkflowCatalogItem.Attrs S) s' st e,
     (Id (w_d w) = "" /\ WorkflowCatalogItem.name (New (w_d w)) <> "" /\
      WorkflowCatalogItem.FindCatalogItemByName cl (WorkflowCatalogItem.name (New (w_d w))) (w_srv w)
        = (s', ApiErr st e)) \/
     (Id (w_d w) <> "" /\
      WorkflowCatalogItem.GetCatalogItem cl (toInt64 (Id (w_d w))) (w_srv w) = (s', ApiErr st e)) ->
     (is404 st = true ->
        fst (WorkflowCatalogItem.resourceWorkflowCatalogItemRead S cl w) = [] /\
        Id (w_d (snd (WorkflowCatalogItem.resourceWorkflowCatalogItemRead S cl w))) = "") /\
     (is404 st = false -> fst (WorkflowCatalogItem.resourceWorkflowCatalogItemRead S cl w) = [e])) /\
  (forall S (cl : AnsibleTower.Client S) (w : World AnsibleTower.Attrs S) s' st e,
     (Id (w_d w) = "" /\ AnsibleTower.name (New (w_d w)) <> "" /\
      AnsibleTower.FindIntegrationByName cl (AnsibleTower.name (New (w_d w))) (w_srv w)
        = (s', ApiErr st e)) \/
     (Id (w_d w) <> "" /\
      AnsibleTower.GetIntegration cl (toInt64 (Id (w_d w))) (w_srv w) = (s', ApiErr st e)) ->
     (is404 st = true ->
        fst (AnsibleTower.resourceAnsibleTowerIntegrationRead S cl w) = [] /\
        Id (w_d (snd (AnsibleTower.resourceAnsibleTowerIntegrationRead S cl w))) = "") /\
     (is404 st = false -> fst (AnsibleTower.resourceAnsibleTowerIntegrationRead S cl w) = [e])).
Proof.
  split; [|split].
  - unfold Helm.resourceHelmSpecTemplateRead, Helm.readResponse. read_error_case.
  - unfold WorkflowCatalogItem.resourceWorkflowCatalogItemRead, WorkflowCatalogItem.readResponse.
    read_error_case.
  - unfold AnsibleTower.resourceAnsibleTowerIntegrationRead, AnsibleTower.readResponse.
    read_error_case.
Qed.

Lemma read_not_found_clears_id_witness :
  (fst (Helm.resourceHelmSpecTemplateRead unit helmGone
          (mkWorld (mkRD "3" helmEmpty helmEmpty) tt [])) = [] /\
   Id (w_d (snd (Helm.resourceHelmSpecTemplateRead unit helmGone
          (mkWorld (mkRD "3" helmEmpty helmEmpty) tt [])))) = "") /\
  (fst (WorkflowCatalogItem.resourceWorkflowCatalogItemRead unit catalogGone
          (mkWorld (mkRD "3" catalogEmpty catalogEmpty) tt [])) = [] /\
   Id (w_d (snd (WorkflowCatalogItem.resourceWorkflowCatalogItemRead unit catalogGone
          (mkWorld (mkRD "3" catalogEmpty catalogEmpty) tt [])))) = "") /\
  (fst (AnsibleTower.resourceAnsibleTowerIntegrationRead unit towerGone
          (mkWorld (mkRD "3" towerEmpty towerEmpty) tt [])) = [] /\
   Id (w_d (snd (AnsibleTower.resourceAnsibleTowerIntegrationRead unit towerGone
          (mkWorld (mkRD "3" towerEmpty towerEmpty) tt [])))) = "").
Proof.
  destruct read_not_found_clears_id as [H1 [H2 H3]].
  assert (Hid : "3" <> "") by discriminate.
  split; [|split].
  - apply (H1 unit helmGone _ tt (Some 404) "404 Not Found"); [right; split; [exact Hid | reflexivity] | reflexivity].
  - apply (H2 unit catalogGone _ tt (Some 404) "404 Not Found"); [right; split; [exact Hid | reflexivity] | reflexivity].
  - apply (H3 unit towerGone _ tt (Some 404) "404 Not Found"); [right; split; [exact Hid | reflexivity] | reflexivity].
Defined.

Ltac split_ifs :=
  repeat match goal with
         | |- context [if ?b then _ else _] => destruct b
         end.

Lemma helm_readResponse_log S r (w : World Helm.Attrs S) :
  w_log (snd (Helm.readResponse S r w)) = w_log w.
Proof.
  unfold Helm.readResponse.
  destruct r as [[t|]|st e]; unfold_monad; cbn; split_ifs; reflexivity.
Qed.

Lemma catalog_readResponse_log S r (w : World WorkflowCatalogItem.Attrs S) :
  w_log (snd (WorkflowCatalogItem.readResponse S r w)) = w_log w.
Proof.
  unfold WorkflowCatalogItem.readResponse.
  destruct r as [t|st e]; unfold_monad; cbn; split_ifs; reflexivity.
Qed.

Lemma tower_readResponse_log S r (w : World AnsibleTower.Attrs S) :
  w_log (snd (AnsibleTower.readResponse S r w)) = w_log w.
Proof.
  unfold AnsibleTower.readResponse.
  destruct r as [t|st e]; unfold_monad; cbn; split_ifs; reflexivity.
Qed.

Ltac dispatch_case resp_log :=
  intros S cl w; split; [|split];
  [ intros Hid; unfold_monad; take_path Hid Hid;
    match goal with |- context [let (_, _) := ?f ?a (w_srv ?w0) in _] => destruct (f a (w_srv w0)) as [s' r] end;
    cbn beta iota zeta; rewrite resp_log; reflexivity
  | intros [Hid Hnm]; unfold_monad; take_path Hid Hnm;
    match goal with |- context [let (_, _) := ?f ?a (w_srv ?w0) in _] => destruct (f a (w_srv w0)) as [s' r] end;
    cbn beta iota zeta; rewrite resp_log; reflexivity
  | intros [Hid Hnm]; unfold_monad; rewrite Hid, Hnm; cbn; split; [discriminate | reflexivity] ].

(** C8: a read with an identifier issues exactly one request, the lookup by
    identifier; a read without identifier but with a name issues exactly one
    request, the lookup by name; a read with neither returns an error and
    issues no request (the state, the server and the call log are unchanged).
    For each of the three kinds. *)
Theorem read_dispatch :
  (forall S (cl : Helm.Client S) (w : World Helm.Attrs S),
     (Id (w_d w) <> "" ->
        w_log (snd (Helm.resourceHelmSpecTemplateRead S cl w))
        = w_log w ++ [mkCall "GetSpecTemplate" [JNum (toInt64 (Id (w_d w)))]]) /\
     (Id (w_d w) = "" /\ Helm.name (New (w_d w)) <> "" ->
        w_log (snd (Helm.resourceHelmSpecTemplateRead S cl w))
        = w_log w ++ [mkCall "FindSpecTemplateByName" [JStr (Helm.name (New (w_d w)))]]) /\
     (Id (w_d w) = "" /\ Helm.name (New (w_d w)) = "" ->
        fst (Helm.resourceHelmSpecTemplateRead S cl w) <> [] /\
        snd (Helm.resourceHelmSpecTemplateRead S cl w) = w)) /\
  (forall S (cl : WorkflowCatalogItem.Client S) (w : World WorkflowCatalogItem.Attrs S),
     (Id (w_d w) <> "" ->
        w_log (snd (WorkflowCatalogItem.resourceWorkflowCatalogItemRead S cl w))
        = w_log w ++ [mkCall "GetCatalogItem" [JNum (toInt64 (Id (w_d w)))]]) /\
     (Id (w_d w) = "" /\ WorkflowCatalogItem.name (New (w_d w)) <> "" ->
        w_log (snd (WorkflowCatalogItem.resourceWorkflowCatalogItemRead S cl w))
        = w_log w ++ [mkCall "FindCatalogItemByName" [JStr (WorkflowCatalogItem.name (New (w_d w)))]]) /\
     (Id (w_d w) = "" /\ WorkflowCatalogItem.name (New (w_d w)) = "" ->
        fst (WorkflowCatalogItem.resourceWorkflowCatalogItemRead S cl w) <> [] /\
        snd (WorkflowCatalogItem.resourceWorkflowCatalogItemRead S cl w) = w)) /\
  (forall S (cl : AnsibleTower.Client S) (w : World AnsibleTower.Attrs S),
     (Id (w_d w) <> "" ->
        w_log (snd (AnsibleTower.resourceAnsibleTowerIntegrationRead S cl w))
        = w_log w ++ [mkCall "GetIntegration" [JNum (toInt64 (Id (w_d w)))]]) /\
     (Id (w_d w) = "" /\ AnsibleTower.name (New (w_d w)) <> "" ->
        w_log (snd (AnsibleTower.resourceAnsibleTowerIntegrationRead S cl w))
        = w_log w ++ [mkCall "FindIntegrationByName" [JStr (AnsibleTower.name (New (w_d w)))]]) /\
     (Id (w_d w) = "" /\ AnsibleTower.name (New (w_d w)) = "" ->
        fst (AnsibleTower.resourceAnsibleTowerIntegrationRead S cl w) <> [] /\
        snd (AnsibleTower.resourceAnsibleTowerIntegrationRead S cl w) = w)).
Proof.
  split; [|split].
  - unfold Helm.resourceHelmSpecTemplateRead. dispatch_case helm_readResponse_log.
  - unfold WorkflowCatalogItem.resourceWorkflowCatalogItemRead.
    dispatch_case catalog_readResponse_log.
  - unfold AnsibleTower.resourceAnsibleTowerIntegrationRead.
    dispatch_case tower_readResponse_log.
Qed.

Lemma read_dispatch_witness :
  (w_log (snd (Helm.resourceHelmSpecTemplateRead unit helmGone (mkWorld (mkRD "3" helmEmpty helmEmpty) tt []))) = [mkCall "GetSpecTemplate" [JNum 3]] /\
   w_log (snd (Helm.resourceHelmSpecTemplateRead unit helmGone (mkWorld (mkRD "" helmEmpty (Helm.mkAttrs "app" "" "" "" 0 "")) tt []))) = [mkCall "FindSpecTemplateByName" [JStr "app"]] /\
   fst (Helm.resourceHelmSpecTemplateRead unit helmGone (mkWorld (mkRD "" helmEmpty helmEmpty) tt [])) <> [] /\
   snd (Helm.resourceHelmSpecTemplateRead unit helmGone (mkWorld (mkRD "" helmEmpty helmEmpty) tt [])) = (mkWorld (mkRD "" helmEmpty helmEmpty) tt [])) /\
  (w_log (snd (WorkflowCatalogItem.resourceWorkflowCatalogItemRead unit catalogGone (mkWorld (mkRD "3" catalogEmpty catalogEmpty) tt []))) = [mkCall "GetCatalogItem" [JNum 3]] /\
   w_log (snd (WorkflowCatalogItem.resourceWorkflowCatalogItemRead unit catalogGone (mkWorld (mkRD "" catalogEmpty (WorkflowCatalogItem.mkAttrs "app" [] "" "" false false 0 "" "" [] "" "" "" "" "" 0)) tt []))) = [mkCall "FindCatalogItemByName" [JStr "app"]] /\
   fst (WorkflowCatalogItem.resourceWorkflowCatalogItemRead unit catalogGone (mkWorld (mkRD "" catalogEmpty catalogEmpty) tt [])) <> [] /\
   snd (WorkflowCatalogItem.resourceWorkflowCatalogItemRead unit catalogGone (mkWorld (mkRD "" catalogEmpty catalogEmpty) tt [])) = (mkWorld (mkRD "" catalogEmpty catalogEmpty) tt [])) /\
  (w_log (snd (AnsibleTower.resourceAnsibleTowerIntegrationRead unit towerGone (mkWorld (mkRD "3" towerEmpty towerEmpty) tt []))) = [mkCall "GetIntegration" [JNum 3]] /\
   w_log (snd (AnsibleTower.resourceAnsibleTowerIntegrationRead unit towerGone (mkWorld (mkRD "" towerEmpty (AnsibleTower.mkAttrs "app" false "" "" "" 0)) tt []))) = [mkCall "FindIntegrationByName" [JStr "app"]] /\
   fst (AnsibleTower.resourceAnsibleTowerIntegrationRead unit towerGone (mkWorld (mkRD "" towerEmpty towerEmpty) tt [])) <> [] /\
   snd (AnsibleTower.resourceAnsibleTowerIntegrationRead unit towerGone (mkWorld (mkRD "" towerEmpty towerEmpty) tt [])) = (mkWorld (mkRD "" towerEmpty towerEmpty) tt [])).
Proof.
  destruct read_dispatch as [H1 [H2 H3]].
  split; [|split].
  - destruct (H1 unit helmGone (mkWorld (mkRD "3" helmEmpty helmEmpty) tt [])) as [Ha _].
    destruct (H1 unit helmGone (mkWorld (mkRD "" helmEmpty (Helm.mkAttrs "app" "" "" "" 0 "")) tt [])) as [_ [Hb _]].
    destruct (H1 unit helmGone (mkWorld (mkRD "" helmEmpty helmEmpty) tt [])) as [_ [_ Hc]].
    split; [apply Ha; discriminate | split; [apply Hb; split; [reflexivity | discriminate] | apply Hc; split; reflexivity]].
  - destruct (H2 unit catalogGone (mkWorld (mkRD "3" catalogEmpty catalogEmpty) tt [])) as [Ha _].
    destruct (H2 unit catalogGone (mkWorld (mkRD "" catalogEmpty (WorkflowCatalogItem.mkAttrs "app" [] "" "" false false 0 "" "" [] "" "" "" "" "" 0)) tt [])) as [_ [Hb _]].
    destruct (H2 unit catalogGone (mkWorld (mkRD "" catalogEmpty catalogEmpty) tt [])) as [_ [_ Hc]].
    split; [apply Ha; discriminate | split; [apply Hb; split; [reflexivity | discriminate] | apply Hc; split; reflexivity]].
  - destruct (H3 unit towerGone (mkWorld (mkRD "3" towerEmpty towerEmpty) tt [])) as [Ha _].
    destruct (H3 unit towerGone (mkWorld (mkRD "" towerEmpty (AnsibleTower.mkAttrs "app" false "" "" "" 0)) tt [])) as [_ [Hb _]].
    destruct (H3 unit towerGone (mkWorld (mkRD "" towerEmpty towerEmpty) tt [])) as [_ [_ Hc]].
    split; [apply Ha; discriminate | split; [apply Hb; split; [reflexivity | discriminate] | apply Hc; split; reflexivity]].
Defined.

(** ** Logs only grow *)

Ltac log_ext_case resp_log :=
  intros S cl w; unfold_monad; split_ifs;
  first
    [ match goal with |- context [let (_, _) := ?f ?a (w_srv ?w0) in _] =>
        destruct (f a (w_srv w0)) as [s' r] end;
      cbn beta iota zeta; rewrite resp_log; eexists; reflexivity
    | exists []; cbn; symmetry; apply app_nil_r ].

Lemma helm_read_log_ext S (cl : Helm.Client S) w :
  exists l, w_log (snd (Helm.resourceHelmSpecTemplateRead S cl w)) = w_log w ++ l.
Proof. revert S cl w. unfold Helm.resourceHelmSpecTemplateRead. log_ext_case helm_readResponse_log. Qed.

Lemma catalog_read_log_ext S (cl : WorkflowCatalogItem.Client S) w :
  exists l, w_log (snd (WorkflowCatalogItem.resourceWorkflowCatalogItemRead S cl w)) = w_log w ++ l.
Proof.
  revert S cl w. unfold WorkflowCatalogItem.resourceWorkflowCatalogItemRead.
  log_ext_case catalog_readResponse_log.
Qed.

Lemma tower_read_log_ext S (cl : AnsibleTower.Client S) w :
  exists l, w_log (snd (AnsibleTower.resourceAnsibleTowerIntegrationRead S cl w)) = w_log w ++ l.
Proof.
  revert S cl w. unfold AnsibleTower.resourceAnsibleTowerIntegrationRead.
  log_ext_case tower_readResponse_log.
Qed.

(** ** The helm request payload *)

(** C6: creating a helm spec template with [source_type = "repository"],
    [spec_path = "charts/app"], [repository_id = 5] and [version_ref = "main"]
    sends, as its first request, a [CreateSpecTemplate] whose [file] object
    has [contentPath = "charts/app"], [contentRef = "main"],
    [repository.id = 5] and no [content] field. *)
Theorem helm_repository_create_payload :
  forall S (cl : Helm.Client S) (w : World Helm.Attrs S) nm sc,
    New (w_d w) = Helm.mkAttrs nm "repository" sc "charts/app" 5 "main" ->
    exists body file rest,
      w_log (snd (Helm.resourceHelmSpecTemplateCreate S cl w))
        = w_log w ++ mkCall "CreateSpecTemplate" [body] :: rest /\
      jfield "file" (json_of (jfield "specTemplate" body)) = Some (JObj file) /\
      jget "contentPath" file = Some (JStr "charts/app") /\
      jget "contentRef" file = Some (JStr "main") /\
      jfield "id" (json_of (jget "repository" file)) = Some (JNum 5) /\
      jget "content" file = None.
Proof.
  intros S cl w nm sc HX.
  unfold Helm.resourceHelmSpecTemplateCreate. unfold_monad. rewrite HX.
  destruct (Helm.CreateSpecTemplate cl _ (w_srv w)) as [s1 [sid|st e]];
    cbn beta iota zeta.
  - destruct (helm_read_log_ext S cl
      (mkWorld (mkRD (int64ToString sid) (Old (w_d w)) (New (w_d w))) s1
         (w_log w ++ [mkCall "CreateSpecTemplate"
                        [Helm.requestBody (Helm.mkAttrs nm "repository" sc "charts/app" 5 "main")]])))
      as [l Hl].
    destruct (Helm.resourceHelmSpecTemplateRead S cl _) as [r w2] eqn:E. cbn in Hl |- *.
    rewrite Hl, <- app_assoc. do 3 eexists. split; [reflexivity|].
    cbn. repeat split; reflexivity.
  - do 3 eexists. split; [reflexivity|].
    cbn. repeat split; reflexivity.
Qed.

Lemma helm_repository_create_payload_witness :
  exists body file rest,
    w_log (snd (Helm.resourceHelmSpecTemplateCreate _ (HelmServer.client "git")
       (mkWorld (mkRD "" helmEmpty (Helm.mkAttrs "app" "repository" "" "charts/app" 5 "main"))
          (mkStore 1 []) [])))
      = [] ++ mkCall "CreateSpecTemplate" [body] :: rest /\
    jfield "file" (json_of (jfield "specTemplate" body)) = Some (JObj file) /\
    jget "contentPath" file = Some (JStr "charts/app") /\
    jget "contentRef" file = Some (JStr "main") /\
    jfield "id" (json_of (jget "repository" file)) = Some (JNum 5) /\
    jget "content" file = None.
Proof.
  apply (helm_repository_create_payload _ (HelmServer.client "git")
           (mkWorld (mkRD "" helmEmpty (Helm.mkAttrs "app" "repository" "" "charts/app" 5 "main"))
              (mkStore 1 []) []) "app" "").
  reflexivity.
Defined.

(** ** The Ansible Tower integration's credential groups *)

Ltac read_ok_path :=
  match goal with
  | [ Hp : (Id (w_d ?w) = "" /\ _ /\ _) \/ (Id (w_d ?w) <> "" /\ _) |- _ ] =>
      destruct Hp as [[Hid [Hnm H]] | [Hid H]];
      unfold_monad; [ take_path Hid Hnm | take_path Hid Hid ];
      rewrite H; cbn beta iota zeta
  end.

(** C10: after a successful lookup (by name without identifier, by identifier
    otherwise) the read succeeds and writes exactly one credential group: when
    the remote credential ID is 0 it writes the remote username and the
    server-stored password hash and leaves [credential_id] as it was; otherwise
    it writes [credential_id] and leaves [username] and [password] as they were. *)
Theorem tower_read_credential_group :
  forall S (cl : AnsibleTower.Client S) (w : World AnsibleTower.Attrs S) s' it,
    (Id (w_d w) = "" /\ AnsibleTower.name (New (w_d w)) <> "" /\
     AnsibleTower.FindIntegrationByName cl (AnsibleTower.name (New (w_d w))) (w_srv w)
       = (s', ApiOk it)) \/
    (Id (w_d w) <> "" /\
     AnsibleTower.GetIntegration cl (toInt64 (Id (w_d w))) (w_srv w) = (s', ApiOk it)) ->
    let r := AnsibleTower.resourceAnsibleTowerIntegrationRead S cl w in
    let x := New (w_d w) in
    let y := New (w_d (snd r)) in
    fst r = [] /\
    (AnsibleTower.CredentialID it = 0 ->
       AnsibleTower.username y = AnsibleTower.Username it /\
       AnsibleTower.password y = AnsibleTower.PasswordHash it /\
       AnsibleTower.credential_id y = AnsibleTower.credential_id x) /\
    (AnsibleTower.CredentialID it <> 0 ->
       AnsibleTower.credential_id y = AnsibleTower.CredentialID it /\
       AnsibleTower.username y = AnsibleTower.username x /\
       AnsibleTower.password y = AnsibleTower.password x).
Proof.
  intros S cl w s' it Hp.
  unfold AnsibleTower.resourceAnsibleTowerIntegrationRead, AnsibleTower.readResponse.
  read_ok_path;
  (cbn; unfold AnsibleTower.observe;
   split; [reflexivity|];
   destruct (Z.eqb_spec (AnsibleTower.CredentialID it) 0) as [E|E];
   (split; intro Hc; [ | ]); try contradiction; cbn; repeat split; reflexivity).
Qed.


Lemma tower_read_credential_group_witness :
  fst (AnsibleTower.resourceAnsibleTowerIntegrationRead unit (towerOne 0)
         (mkWorld (mkRD "4" towerEmpty (AnsibleTower.mkAttrs "tower" true "u" "me" "pw" 0)) tt []))
    = [] /\
  AnsibleTower.password (New (w_d (snd (AnsibleTower.resourceAnsibleTowerIntegrationRead unit
      (towerOne 0)
      (mkWorld (mkRD "4" towerEmpty (AnsibleTower.mkAttrs "tower" true "u" "me" "pw" 0)) tt [])))))
    = sha256_hex "secret".
Proof.
  assert (Hid : "4" <> "") by discriminate.
  destruct (tower_read_credential_group unit (towerOne 0)
              (mkWorld (mkRD "4" towerEmpty (AnsibleTower.mkAttrs "tower" true "u" "me" "pw" 0)) tt [])
              tt
              (AnsibleTower.mkIntegration 4 "tower" true "https://tower.example.com" 0 "admin"
                 (sha256_hex "secret")))
    as [H0 [H1 _]].
  - right. split; [exact Hid | reflexivity].
  - split; [exact H0 | apply H1; reflexivity].
Defined.

(** C5 (the create payload of the Ansible Tower integration): with a nonzero
    [credential_id], the integration sent by create has no [credential] entry
    at all, while the integration sent by update carries
    [{"type": "username-password", "id": credential_id}]. *)
Theorem tower_create_omits_credential :
  forall (d : RD AnsibleTower.Attrs),
    AnsibleTower.credential_id (New d) <> 0 ->
    jget "credential" (AnsibleTower.createIntegration (New d)) = None /\
    jget "credential" (AnsibleTower.updateIntegration d)
      = Some (JObj [("type", JStr "username-password");
                    ("id", JNum (AnsibleTower.credential_id (New d)))]).
Proof.
  intros d Hc.
  unfold AnsibleTower.createIntegration, AnsibleTower.updateIntegration.
  destruct (Z.eqb_spec (AnsibleTower.credential_id (New d)) 0) as [E|E];
    [contradiction|].
  cbn. split; reflexivity.
Qed.

Lemma tower_create_omits_credential_witness :
  jget "credential" (AnsibleTower.createIntegration
     (AnsibleTower.mkAttrs "tower" true "https://tower.example.com" "" "" 12)) = None /\
  jget "credential" (AnsibleTower.updateIntegration
     (mkRD "1" towerEmpty (AnsibleTower.mkAttrs "tower" true "https://tower.example.com" "" "" 12)))
    = Some (JObj [("type", JStr "username-password"); ("id", JNum 12)]).
Proof.
  apply (tower_create_omits_credential
           (mkRD "1" towerEmpty (AnsibleTower.mkAttrs "tower" true "https://tower.example.com" "" "" 12))).
  discriminate.
Defined.

(** ** The catalog item's logo upload *)

(** C9: when the primary create succeeds with identifier [cid] and the logo
    upload that follows fails, the create still succeeds: it assigns the
    identifier [cid] and runs the read, whose outcome it ignores. *)
Theorem catalog_create_ignores_logo_failure :
  forall S (cl : WorkflowCatalogItem.Client S) (ReadFile : string -> option (list Z))
         (w : World WorkflowCatalogItem.Attrs S) cid s1 fps s2 st e,
    let req := WorkflowCatalogItem.wrapBody (WorkflowCatalogItem.createCatalogItem (New (w_d w))) in
    WorkflowCatalogItem.CreateCatalogItem cl req (w_srv w) = (s1, ApiOk cid) ->
    WorkflowCatalogItem.createFilePayloads ReadFile (New (w_d w)) = inr fps ->
    WorkflowCatalogItem.UpdateCatalogItemLogo cl cid fps s1 = (s2, ApiErr st e) ->
    WorkflowCatalogItem.resourceWorkflowCatalogItemCreate S cl ReadFile w
    = ([], snd (WorkflowCatalogItem.resourceWorkflowCatalogItemRead S cl
                 (mkWorld (mkRD (int64ToString cid) (Old (w_d w)) (New (w_d w))) s2
                    (w_log w ++ [mkCall "CreateCatalogItem" [req]] ++
                     [mkCall "UpdateCatalogItemLogo"
                        [JNum cid; JArr (map WorkflowCatalogItem.filePayloadJson fps)]])))).
Proof.
  intros S cl RF w cid s1 fps s2 st e req Hc Hf Hl.
  unfold WorkflowCatalogItem.resourceWorkflowCatalogItemCreate, WorkflowCatalogItem.uploadLogos.
  unfold_monad. fold req. rewrite Hc. cbn beta iota zeta. rewrite Hf. cbn beta iota zeta. cbn [w_srv w_d w_log].
  rewrite Hl. cbn beta iota zeta. cbn [w_srv w_d w_log Id Old New].
  rewrite <- app_assoc.
  destruct (WorkflowCatalogItem.resourceWorkflowCatalogItemRead S cl _); reflexivity.
Qed.

Lemma catalog_create_ignores_logo_failure_witness :
  fst (WorkflowCatalogItem.resourceWorkflowCatalogItemCreate unit catalogLogoFails someFiles
         (mkWorld (mkRD "" catalogEmpty
            (WorkflowCatalogItem.mkAttrs "item" [] "" "" true false 3 "instance" "" []
               "logo.png" "/tmp/logo.png" "" "" "public" 0)) tt [])) = [] /\
  Id (w_d (snd (WorkflowCatalogItem.resourceWorkflowCatalogItemCreate unit catalogLogoFails someFiles
         (mkWorld (mkRD "" catalogEmpty
            (WorkflowCatalogItem.mkAttrs "item" [] "" "" true false 3 "instance" "" []
               "logo.png" "/tmp/logo.png" "" "" "public" 0)) tt [])))) = "7".
Proof.
  rewrite (catalog_create_ignores_logo_failure unit catalogLogoFails someFiles
             (mkWorld (mkRD "" catalogEmpty
                (WorkflowCatalogItem.mkAttrs "item" [] "" "" true false 3 "instance" "" []
                   "logo.png" "/tmp/logo.png" "" "" "public" 0)) tt [])
             7 tt [WorkflowCatalogItem.mkFilePayload "logo" "logo.png" [137; 80]] tt
             (Some 500) "500 Internal Server Error");
    [ split; vm_compute; reflexivity | reflexivity | reflexivity | reflexivity ].
Defined.

(** ** Update payloads *)

Lemma catalog_update_logos S (cl : WorkflowCatalogItem.Client S) cid fps
      (w : World WorkflowCatalogItem.Attrs S) :
  w_log (snd (WorkflowCatalogItem.uploadLogos S cl cid fps w))
  = w_log w ++ [mkCall "UpdateCatalogItemLogo"
                  [JNum cid; JArr (map WorkflowCatalogItem.filePayloadJson fps)]].
Proof.
  unfold WorkflowCatalogItem.uploadLogos. unfold_monad.
  destruct (WorkflowCatalogItem.UpdateCatalogItemLogo cl cid fps (w_srv w)). reflexivity.
Qed.

Lemma logoPayload_names RF c p path fname fps :
  WorkflowCatalogItem.logoPayload RF c p path fname = inr fps ->
  map WorkflowCatalogItem.ParameterName fps = if c then [p] else [].
Proof.
  unfold WorkflowCatalogItem.logoPayload.
  destruct c; [destruct (RF path)|]; intro H; inversion H; reflexivity.
Qed.

(** C7 (counterexample): updating an Ansible Tower integration whose
    [username] and [password] did not change sends neither of them, although
    both are set. *)
Lemma update_full_payload_counterexample :
  hd_error (w_log (snd (AnsibleTower.resourceAnsibleTowerIntegrationUpdate unit (towerOne 0)
     (mkWorld (mkRD "1" (AnsibleTower.mkAttrs "tower" true "https://tower.example.com" "admin" "secret" 0)
                        (AnsibleTower.mkAttrs "tower" true "https://tower.example.com" "admin" "secret" 0))
              tt []))))
  = Some (mkCall "UpdateIntegration"
            [JNum 1;
             JObj [("integration",
                    JObj [("name", JStr "tower"); ("enabled", JBool true);
                          ("type", JStr "ansibleTower"); ("serviceVersion", JStr "v2");
                          ("serviceUrl", JStr "https://tower.example.com");
                          ("credential", JObj [("type", JStr "local")])])]]).
Proof. vm_compute. reflexivity. Qed.

(** C7 (amended): the update request of each kind is built from the desired
    attributes: the helm spec template sends [requestBody] and the workflow
    catalog item [updateCatalogItem] of the desired attributes alone, whatever
    the last observed state; the Ansible Tower integration's request depends
    on the last observed state only through whether [username] and [password]
    changed, and (with [credential_id = 0]) sends each of them exactly when it
    changed; a catalog item logo (dark logo) is re-uploaded exactly when its
    path or name changed. *)
Theorem update_payload_from_desired_state :
  (forall S (cl : Helm.Client S) (w : World Helm.Attrs S),
     exists rest, w_log (snd (Helm.resourceHelmSpecTemplateUpdate S cl w))
       = w_log w ++ mkCall "UpdateSpecTemplate"
                      [JNum (toInt64 (Id (w_d w))); Helm.requestBody (New (w_d w))] :: rest) /\
  (forall S (cl : WorkflowCatalogItem.Client S) RF (w : World WorkflowCatalogItem.Attrs S),
     exists rest, w_log (snd (WorkflowCatalogItem.resourceWorkflowCatalogItemUpdate S cl RF w))
       = w_log w ++ mkCall "UpdateCatalogItem"
           [JNum (toInt64 (Id (w_d w)));
            WorkflowCatalogItem.wrapBody (WorkflowCatalogItem.updateCatalogItem (New (w_d w)))]
           :: rest) /\
  (forall S (cl : AnsibleTower.Client S) (w : World AnsibleTower.Attrs S),
     exists rest, w_log (snd (AnsibleTower.resourceAnsibleTowerIntegrationUpdate S cl w))
       = w_log w ++ mkCall "UpdateIntegration"
           [JNum (toInt64 (Id (w_d w)));
            AnsibleTower.wrapBody (AnsibleTower.updateIntegration (w_d w))] :: rest) /\
  (forall d1 d2 : RD AnsibleTower.Attrs,
     New d1 = New d2 ->
     AnsibleTower.HasChange String.eqb AnsibleTower.username d1
       = AnsibleTower.HasChange String.eqb AnsibleTower.username d2 ->
     AnsibleTower.HasChange String.eqb AnsibleTower.password d1
       = AnsibleTower.HasChange String.eqb AnsibleTower.password d2 ->
     AnsibleTower.updateIntegration d1 = AnsibleTower.updateIntegration d2) /\
  (forall d : RD AnsibleTower.Attrs,
     AnsibleTower.credential_id (New d) = 0 ->
     jget "serviceUsername" (AnsibleTower.updateIntegration d)
       = (if AnsibleTower.HasChange String.eqb AnsibleTower.username d
          then Some (JStr (AnsibleTower.username (New d))) else None) /\
     jget "servicePassword" (AnsibleTower.updateIntegration d)
       = (if AnsibleTower.HasChange String.eqb AnsibleTower.password d
          then Some (JStr (AnsibleTower.password (New d))) else None)) /\
  (forall RF (d : RD WorkflowCatalogItem.Attrs) fps,
     WorkflowCatalogItem.updateFilePayloads RF d = inr fps ->
     map WorkflowCatalogItem.ParameterName fps
       = (if WorkflowCatalogItem.HasChange String.eqb WorkflowCatalogItem.logo_image_path d
             || WorkflowCatalogItem.HasChange String.eqb WorkflowCatalogItem.logo_image_name d
          then ["logo"] else []) ++
         (if WorkflowCatalogItem.HasChange String.eqb WorkflowCatalogItem.dark_logo_image_path d
             || WorkflowCatalogItem.HasChange String.eqb WorkflowCatalogItem.dark_logo_image_name d
          then ["darkLogo"] else [])).
Proof.
  split; [|split; [|split; [|split; [|split]]]].
  - intros S cl w. unfold Helm.resourceHelmSpecTemplateUpdate. unfold_monad.
    destruct (Helm.UpdateSpecTemplate cl _ _ (w_srv w)) as [s1 [sid|st e]]; cbn beta iota zeta.
    + match goal with |- context [Helm.resourceHelmSpecTemplateRead S cl ?w1] =>
        destruct (helm_read_log_ext S cl w1) as [l Hl] end.
      cbn [w_log w_d w_srv Id Old New] in Hl |- *.
      rewrite Hl, <- app_assoc. eexists. reflexivity.
    + eexists. reflexivity.
  - intros S cl RF w. unfold WorkflowCatalogItem.resourceWorkflowCatalogItemUpdate. unfold_monad.
    destruct (WorkflowCatalogItem.UpdateCatalogItem cl _ _ (w_srv w)) as [s1 [cid|st e]];
      cbn beta iota zeta.
    + destruct (WorkflowCatalogItem.updateFilePayloads RF _) as [err|fps]; cbn beta iota zeta.
      * eexists. reflexivity.
      * match goal with |- context [let (_, _) := WorkflowCatalogItem.uploadLogos S cl cid fps ?w1 in _] =>
          pose proof (catalog_update_logos S cl cid fps w1) as Hlogo;
          destruct (WorkflowCatalogItem.uploadLogos S cl cid fps w1) as [r2 w2] end.
        cbn [snd w_log] in Hlogo. cbn beta iota zeta.
        match goal with |- context [WorkflowCatalogItem.resourceWorkflowCatalogItemRead S cl ?w3] =>
          destruct (catalog_read_log_ext S cl w3) as [l Hl] end.
        cbn [w_log w_d w_srv Id Old New] in Hl |- *.
        rewrite Hl, Hlogo, <- !app_assoc. eexists. reflexivity.
    + eexists. reflexivity.
  - intros S cl w. unfold AnsibleTower.resourceAnsibleTowerIntegrationUpdate. unfold_monad.
    destruct (AnsibleTower.UpdateIntegration cl _ _ (w_srv w)) as [s1 [iid|st e]]; cbn beta iota zeta.
    + match goal with |- context [AnsibleTower.resourceAnsibleTowerIntegrationRead S cl ?w1] =>
        destruct (tower_read_log_ext S cl w1) as [l Hl] end.
      cbn [w_log w_d w_srv Id Old New] in Hl |- *.
      rewrite Hl, <- app_assoc. eexists. reflexivity.
    + eexists. reflexivity.
  - intros d1 d2 HN Hu Hp. unfold AnsibleTower.updateIntegration.
    rewrite Hu, Hp, HN. reflexivity.
  - intros d Hc. unfold AnsibleTower.updateIntegration. rewrite Hc. cbn [Z.eqb negb].
    destruct (AnsibleTower.HasChange String.eqb AnsibleTower.username d);
      destruct (AnsibleTower.HasChange String.eqb AnsibleTower.password d);
      cbn; split; reflexivity.
  - intros RF d fps H. unfold WorkflowCatalogItem.updateFilePayloads,
      WorkflowCatalogItem.appendPayloads in H.
    destruct (WorkflowCatalogItem.logoPayload RF _ "logo" _ _) as [e1|l1] eqn:E1; [discriminate|].
    destruct (WorkflowCatalogItem.logoPayload RF _ "darkLogo" _ _) as [e2|l2] eqn:E2; [discriminate|].
    injection H as <-. rewrite map_app.
    rewrite (logoPayload_names _ _ _ _ _ _ E1), (logoPayload_names _ _ _ _ _ _ E2). reflexivity.
Qed.

Lemma update_payload_from_desired_state_witness :
  AnsibleTower.updateIntegration
    (mkRD "1" (AnsibleTower.mkAttrs "tower" true "u" "admin" "old" 0)
              (AnsibleTower.mkAttrs "tower" true "u" "admin2" "secret" 0))
  = AnsibleTower.updateIntegration
    (mkRD "1" (AnsibleTower.mkAttrs "other" false "v" "root" "old2" 0)
              (AnsibleTower.mkAttrs "tower" true "u" "admin2" "secret" 0)) /\
  jget "serviceUsername" (AnsibleTower.updateIntegration
    (mkRD "1" (AnsibleTower.mkAttrs "tower" true "u" "admin" "old" 0)
              (AnsibleTower.mkAttrs "tower" true "u" "admin2" "secret" 0)))
  = Some (JStr "admin2") /\
  match WorkflowCatalogItem.updateFilePayloads someFiles
          (mkRD "1" catalogEmpty
             (WorkflowCatalogItem.mkAttrs "item" [] "" "" true false 3 "instance" "" []
                "logo.png" "img/logo.png" "" "" "" 0)) with
  | inr fps => map WorkflowCatalogItem.ParameterName fps = ["logo"]
  | inl _ => False
  end.
Proof.
  destruct update_payload_from_desired_state as (_ & _ & _ & H4 & H5 & H6).
  split; [|split].
  - apply H4; reflexivity.
  - rewrite (proj1 (H5 (mkRD "1" (AnsibleTower.mkAttrs "tower" true "u" "admin" "old" 0)
                             (AnsibleTower.mkAttrs "tower" true "u" "admin2" "secret" 0))
                       eq_refl)).
    reflexivity.
  - destruct (WorkflowCatalogItem.updateFilePayloads someFiles _) as [e|fps] eqn:E.
    + vm_compute in E. discriminate.
    + rewrite (H6 _ _ _ E). reflexivity.
Defined.


Lemma strs_of_labels (x : WorkflowCatalogItem.Attrs) :
  CatalogServer.strs_of (Some (JArr (WorkflowCatalogItem.labelsPayload x)))
  = WorkflowCatalogItem.labels x.
Proof.
  unfold WorkflowCatalogItem.labelsPayload, CatalogServer.strs_of.
  destruct (WorkflowCatalogItem.labels x) as [|l ls]; [reflexivity|].
  rewrite map_map. cbn. f_equal. induction ls as [|l' ls IH]; [reflexivity|]. cbn. f_equal. exact IH.
Qed.

Lemma nums_of_map (l : list Z) : CatalogServer.nums_of (Some (JArr (map JNum l))) = l.
Proof.
  unfold CatalogServer.nums_of. rewrite map_map. induction l as [|z l IH]; [reflexivity|].
  cbn. f_equal. exact IH.
Qed.

(** ** String helpers for the logo names derived by the catalog item read *)


Lemma sapp_assoc (a b c : string) :
  String.append (String.append a b) c = String.append a (String.append b c).
Proof. induction a as [|x a IH]; cbn; [reflexivity|]. rewrite IH. reflexivity. Qed.

Lemma sapp_nil_r (a : string) : String.append a "" = a.
Proof. induction a as [|x a IH]; cbn; [reflexivity|]. rewrite IH. reflexivity. Qed.

Lemma last_segment_acc_no_slash (f acc : string) :
  (forall c, In c (list_ascii_of_string f) -> c <> "/"%char) ->
  last_segment_acc f acc = String.append acc f.
Proof.
  revert acc; induction f as [|c f IH]; intros acc H; cbn.
  - symmetry. apply sapp_nil_r.
  - destruct (Ascii.eqb_spec c "/"%char) as [E|E].
    + exfalso. apply (H c); [left; reflexivity | exact E].
    + rewrite IH by (intros c' Hc'; apply H; right; exact Hc').
      rewrite sapp_assoc. reflexivity.
Qed.

Lemma last_segment_acc_slash (q f acc : string) :
  last_segment_acc (String.append q (String "/" f)) acc = last_segment_acc f "".
Proof.
  revert acc; induction q as [|c q IH]; intro acc; cbn.
  - reflexivity.
  - destruct (Ascii.eqb c "/"); apply IH.
Qed.

(** The last element of [strings.Split(s, "/")]: a string with no slash is
    its own last segment (the empty image path gives the empty name), and
    whatever precedes the last slash is dropped. *)
Lemma last_split_slash_segments :
  forall q f : string,
    (forall c, In c (list_ascii_of_string f) -> c <> "/"%char) ->
    last_split_slash f = f /\
    last_split_slash (String.append q (String "/" f)) = f.
Proof.
  intros q f H. unfold last_split_slash.
  rewrite last_segment_acc_slash, !last_segment_acc_no_slash by exact H.
  split; reflexivity.
Qed.

Lemma prefix_app (p s : string) : String.prefix p s = true -> exists b, s = String.append p b.
Proof.
  revert s; induction p as [|c p IH]; intros s H.
  - exists s. reflexivity.
  - destruct s as [|c' s]; [discriminate|]. cbn in H.
    destruct (ascii_dec c c') as [<-|]; [|discriminate].
    destruct (IH s H) as [b ->]. exists b. reflexivity.
Qed.

Lemma substring_0_long (m : nat) (s : string) :
  (String.length s <= m)%nat -> substring 0 m s = s.
Proof.
  revert m; induction s as [|c s IH]; intros m H; cbn; destruct m; try reflexivity.
  - cbn in H. lia.
  - cbn in H. rewrite IH by lia. reflexivity.
Qed.

Lemma substring_after_prefix (p b : string) :
  substring (String.length p) (String.length (String.append p b)) (String.append p b) = b.
Proof.
  assert (Hl : (String.length b <= String.length (String.append p b))%nat).
  { induction p as [|c p IH]; cbn; lia. }
  revert Hl. generalize (String.length (String.append p b)) as m.
  induction p as [|c p IH]; intros m Hl; cbn.
  - apply substring_0_long. exact Hl.
  - apply IH. exact Hl.
Qed.

(** [strings.Replace(s, old, "", 1)] as used on the image names: a string in
    which [old] does not occur is unchanged; with [old = "_original"], the
    first occurrence is removed when the text before it has no underscore. *)
Lemma remove_first_original :
  (forall old s : string,
     (forall a b, s <> String.append a (String.append old b)) -> remove_first old s = s) /\
  (forall a b : string,
     (forall c, In c (list_ascii_of_string a) -> c <> "_"%char) ->
     remove_first "_original" (String.append a (String.append "_original" b))
     = String.append a b).
Proof.
  split.
  - intros old s; induction s as [|c s IH]; intro H; cbn [remove_first]; [reflexivity|].
    destruct (String.prefix old (String c s)) eqn:E.
    + exfalso. destruct (prefix_app _ _ E) as [b Hb]. apply (H "" b). exact Hb.
    + rewrite IH; [reflexivity|].
      intros a b Hs. apply (H (String c a) b). rewrite Hs. reflexivity.
  - intros a b; induction a as [|c a IH]; intro H.
    + cbn. destruct b as [|cb b]; cbn; [reflexivity|]. f_equal. apply substring_0_long. lia.
    + change (String.append (String c a) (String.append "_original" b))
        with (String c (String.append a (String.append "_original" b))).
      cbn [remove_first].
      replace (String.prefix "_original" _) with false.
      * rewrite IH by (intros c' Hc'; apply H; right; exact Hc'). reflexivity.
      * cbn [String.prefix]. destruct (ascii_dec "_" c) as [E|]; [|reflexivity].
        exfalso. apply (H c); [left; reflexivity | symmetry; exact E].
Qed.


Lemma length_sapp (a b : string) : String.length (String.append a b) = (String.length a + String.length b)%nat.
Proof. induction a as [|c a IH]; cbn; [reflexivity|]. rewrite IH. reflexivity. Qed.

Lemma short_no_original (s : string) :
  (String.length s < 9)%nat -> forall a b, s <> String.append a (String.append "_original" b).
Proof.
  intros H a b E. rewrite E, !length_sapp in H. cbn in H. lia.
Qed.

(** ** The catalog item on the reference server *)

Lemma fold_setLogo_fields (fps : list WorkflowCatalogItem.FilePayload) (t : WorkflowCatalogItem.CatalogItem) :
  fold_left CatalogServer.setLogo fps t
  = WorkflowCatalogItem.mkCatalogItem (WorkflowCatalogItem.ID t) (WorkflowCatalogItem.Name t)
      (WorkflowCatalogItem.Labels t) (WorkflowCatalogItem.Description t)
      (WorkflowCatalogItem.Category t) (WorkflowCatalogItem.Enabled t)
      (WorkflowCatalogItem.Featured t) (WorkflowCatalogItem.OptionTypes t)
      (WorkflowCatalogItem.Content t) (WorkflowCatalogItem.Context t)
      (WorkflowCatalogItem.Visibility t) (WorkflowCatalogItem.FormID t)
      (WorkflowCatalogItem.WorkflowID t)
      (fold_left (fun ip p => if String.eqb (WorkflowCatalogItem.ParameterName p) "logo"
                              then String.append "/storage/logos/" (WorkflowCatalogItem.FileName p)
                              else ip) fps (WorkflowCatalogItem.ImagePath t))
      (fold_left (fun ip p => if String.eqb (WorkflowCatalogItem.ParameterName p) "darkLogo"
                              then String.append "/storage/logos/" (WorkflowCatalogItem.FileName p)
                              else ip) fps (WorkflowCatalogItem.DarkImagePath t)).
Proof.
  revert t; induction fps as [|p fps IH]; intro t.
  - destruct t; reflexivity.
  - cbn [fold_left]. rewrite IH. reflexivity.
Qed.

Lemma createFilePayloads_shape RF (x : WorkflowCatalogItem.Attrs) fps :
  WorkflowCatalogItem.createFilePayloads RF x = inr fps ->
  let c1 := negb (String.eqb (WorkflowCatalogItem.logo_image_path x) "")
            && negb (String.eqb (WorkflowCatalogItem.logo_image_name x) "") in
  let c2 := negb (String.eqb (WorkflowCatalogItem.dark_logo_image_path x) "")
            && negb (String.eqb (WorkflowCatalogItem.dark_logo_image_name x) "") in
  exists d1 d2,
    fps = (if c1 then [WorkflowCatalogItem.mkFilePayload "logo" (WorkflowCatalogItem.logo_image_name x) d1]
           else []) ++
          (if c2 then [WorkflowCatalogItem.mkFilePayload "darkLogo"
                         (WorkflowCatalogItem.dark_logo_image_name x) d2] else []).
Proof.
  intros H c1 c2.
  unfold WorkflowCatalogItem.createFilePayloads, WorkflowCatalogItem.appendPayloads,
    WorkflowCatalogItem.logoPayload in H. fold c1 c2 in H.
  destruct c1;
    [destruct (RF (WorkflowCatalogItem.logo_image_path x)) as [d1|]; [|discriminate] | set (d1 := @nil Z)];
    (destruct c2;
      [destruct (RF (WorkflowCatalogItem.dark_logo_image_path x)) as [d2|]; [|discriminate]
      | set (d2 := @nil Z)]);
    injection H as <-; exists d1, d2; reflexivity.
Qed.

Lemma catalog_create_on_server RF n its log (O X : WorkflowCatalogItem.Attrs) fps :
  WorkflowCatalogItem.createFilePayloads RF X = inr fps ->
  let r := WorkflowCatalogItem.resourceWorkflowCatalogItemCreate _ CatalogServer.client RF
             (mkWorld (mkRD "" O X) (mkStore n its) log) in
  fst r = [] /\ Id (w_d (snd r)) = int64ToString n /\
  New (w_d (snd r))
  = WorkflowCatalogItem.observe
      (fold_left CatalogServer.setLogo fps
         (CatalogServer.decode n (WorkflowCatalogItem.wrapBody (WorkflowCatalogItem.createCatalogItem X)))) X.
Proof.
  intros Hf r. subst r.
  unfold WorkflowCatalogItem.resourceWorkflowCatalogItemCreate, WorkflowCatalogItem.resourceWorkflowCatalogItemRead,
    WorkflowCatalogItem.readResponse, WorkflowCatalogItem.uploadLogos.
  unfold_monad.
  cbn -[int64ToString toInt64 intToString WorkflowCatalogItem.createFilePayloads
        WorkflowCatalogItem.wrapBody WorkflowCatalogItem.createCatalogItem fold_left
        WorkflowCatalogItem.observe].
  rewrite Hf.
  cbn -[int64ToString toInt64 intToString WorkflowCatalogItem.createFilePayloads
        WorkflowCatalogItem.wrapBody WorkflowCatalogItem.createCatalogItem fold_left
        WorkflowCatalogItem.observe].
  rewrite Z.eqb_refl.
  cbn -[int64ToString toInt64 intToString WorkflowCatalogItem.createFilePayloads
        WorkflowCatalogItem.wrapBody WorkflowCatalogItem.createCatalogItem fold_left
        WorkflowCatalogItem.observe].
  rewrite (proj2 (String.eqb_neq _ _) (int64ToString_nonempty n)).
  cbn -[int64ToString toInt64 intToString WorkflowCatalogItem.createFilePayloads
        WorkflowCatalogItem.wrapBody WorkflowCatalogItem.createCatalogItem fold_left
        WorkflowCatalogItem.observe].
  rewrite toInt64_int64ToString.
  unfold CatalogServer.replace, CatalogServer.lookup.
  cbn -[int64ToString toInt64 intToString WorkflowCatalogItem.createFilePayloads
        WorkflowCatalogItem.wrapBody WorkflowCatalogItem.createCatalogItem fold_left
        WorkflowCatalogItem.observe].
  rewrite fold_setLogo_fields.
  cbn -[int64ToString toInt64 intToString WorkflowCatalogItem.createFilePayloads
        WorkflowCatalogItem.wrapBody WorkflowCatalogItem.createCatalogItem fold_left
        WorkflowCatalogItem.observe].
  rewrite Z.eqb_refl.
  cbn -[int64ToString toInt64 intToString WorkflowCatalogItem.createFilePayloads
        WorkflowCatalogItem.wrapBody WorkflowCatalogItem.createCatalogItem fold_left
        WorkflowCatalogItem.observe].
  split; [reflexivity|split; [reflexivity|]].
  reflexivity.
Qed.

Lemma logo_name_roundtrip (nm : string) :
  (forall c, In c (list_ascii_of_string nm) -> c <> "/"%char) ->
  (forall a b, nm <> String.append a (String.append "_original" b)) ->
  remove_first "_original" (last_split_slash (String.append "/storage/logos/" nm)) = nm.
Proof.
  intros Hs Ho.
  change (String.append "/storage/logos/" nm) with (String.append "/storage/logos" (String "/" nm)).
  rewrite (proj2 (last_split_slash_segments _ _ Hs)).
  apply (proj1 remove_first_original). exact Ho.
Qed.

Definition plain_logo (nm path : string) : Prop :=
  nm = "" \/
  (path <> "" /\ (forall c, In c (list_ascii_of_string nm) -> c <> "/"%char) /\
   (forall a b, nm <> String.append a (String.append "_original" b))).

Lemma observe_decode_create n (X : WorkflowCatalogItem.Attrs) ip dip :
  0 <= WorkflowCatalogItem.form_id X ->
  let t := CatalogServer.decode n (WorkflowCatalogItem.wrapBody (WorkflowCatalogItem.createCatalogItem X)) in
  WorkflowCatalogItem.observe
    (WorkflowCatalogItem.mkCatalogItem (WorkflowCatalogItem.ID t) (WorkflowCatalogItem.Name t)
       (WorkflowCatalogItem.Labels t) (WorkflowCatalogItem.Description t)
       (WorkflowCatalogItem.Category t) (WorkflowCatalogItem.Enabled t)
       (WorkflowCatalogItem.Featured t) (WorkflowCatalogItem.OptionTypes t)
       (WorkflowCatalogItem.Content t) (WorkflowCatalogItem.Context t)
       (WorkflowCatalogItem.Visibility t) (WorkflowCatalogItem.FormID t)
       (WorkflowCatalogItem.WorkflowID t) ip dip) X
  = WorkflowCatalogItem.mkAttrs (WorkflowCatalogItem.name X) (WorkflowCatalogItem.labels X)
      (WorkflowCatalogItem.description X) (WorkflowCatalogItem.category X)
      (WorkflowCatalogItem.enabled X) (WorkflowCatalogItem.featured X)
      (WorkflowCatalogItem.workflow_id X) (WorkflowCatalogItem.context_type X)
      (WorkflowCatalogItem.content X) (WorkflowCatalogItem.option_type_ids X)
      (remove_first "_original" (last_split_slash ip)) (WorkflowCatalogItem.logo_image_path X)
      (remove_first "_original" (last_split_slash dip)) (WorkflowCatalogItem.dark_logo_image_path X)
      (WorkflowCatalogItem.visibility X) (WorkflowCatalogItem.form_id X).
Proof.
  intros Hf t. subst t.
  pose proof (strs_of_labels X) as HL.
  destruct X as [nm lb ds ct en ft wid cx co ot lin lip dln dlp vis fid];
    cbn [WorkflowCatalogItem.labels WorkflowCatalogItem.form_id] in HL, Hf.
  unfold WorkflowCatalogItem.observe, CatalogServer.decode, WorkflowCatalogItem.wrapBody,
    WorkflowCatalogItem.createCatalogItem, WorkflowCatalogItem.formPart.
  cbn [WorkflowCatalogItem.form_id].
  destruct (Z.ltb_spec 0 fid) as [Hp|Hp].
  - cbn -[CatalogServer.strs_of CatalogServer.nums_of WorkflowCatalogItem.labelsPayload
          remove_first last_split_slash].
    rewrite HL, nums_of_map. reflexivity.
  - assert (fid = 0) by lia. subst fid.
    cbn -[CatalogServer.strs_of CatalogServer.nums_of WorkflowCatalogItem.labelsPayload
          remove_first last_split_slash].
    rewrite HL, nums_of_map. reflexivity.
Qed.

Lemma fold_logo_paths (key other : string) (c1 c2 : bool) n1 n2 d1 d2 :
  key <> other ->
  fold_left (fun ip p => if String.eqb (WorkflowCatalogItem.ParameterName p) key
                         then String.append "/storage/logos/" (WorkflowCatalogItem.FileName p)
                         else ip)
    ((if c1 then [WorkflowCatalogItem.mkFilePayload key n1 d1] else []) ++
     (if c2 then [WorkflowCatalogItem.mkFilePayload other n2 d2] else [])) ""
  = if c1 then String.append "/storage/logos/" n1 else "".
Proof.
  intro H.
  destruct c1, c2; cbn [List.app fold_left WorkflowCatalogItem.ParameterName WorkflowCatalogItem.FileName];
    rewrite ?String.eqb_refl, ?(proj2 (String.eqb_neq other key) (not_eq_sym H)); reflexivity.
Qed.

Lemma fold_dark_paths (key other : string) (c1 c2 : bool) n1 n2 d1 d2 :
  key <> other ->
  fold_left (fun ip p => if String.eqb (WorkflowCatalogItem.ParameterName p) key
                         then String.append "/storage/logos/" (WorkflowCatalogItem.FileName p)
                         else ip)
    ((if c1 then [WorkflowCatalogItem.mkFilePayload other n1 d1] else []) ++
     (if c2 then [WorkflowCatalogItem.mkFilePayload key n2 d2] else [])) ""
  = if c2 then String.append "/storage/logos/" n2 else "".
Proof.
  intro H.
  destruct c1, c2; cbn [List.app fold_left WorkflowCatalogItem.ParameterName WorkflowCatalogItem.FileName];
    rewrite ?String.eqb_refl, ?(proj2 (String.eqb_neq other key) (not_eq_sym H)); reflexivity.
Qed.

Lemma plain_logo_observed (nm path : string) :
  plain_logo nm path ->
  remove_first "_original"
    (last_split_slash (if negb (String.eqb path "") && negb (String.eqb nm "")
                       then String.append "/storage/logos/" nm else "")) = nm.
Proof.
  intro H.
  destruct (String.eqb_spec nm "") as [->|Hn]; [rewrite andb_false_r; reflexivity|].
  destruct H as [|(Hq & Hs & Ho)]; [contradiction|].
  rewrite (proj2 (String.eqb_neq _ _) Hq). cbn [negb andb].
  apply logo_name_roundtrip; assumption.
Qed.

Lemma catalog_roundtrip RF n its log (O X : WorkflowCatalogItem.Attrs) fps :
  0 <= WorkflowCatalogItem.form_id X ->
  plain_logo (WorkflowCatalogItem.logo_image_name X) (WorkflowCatalogItem.logo_image_path X) ->
  plain_logo (WorkflowCatalogItem.dark_logo_image_name X) (WorkflowCatalogItem.dark_logo_image_path X) ->
  WorkflowCatalogItem.createFilePayloads RF X = inr fps ->
  let r := WorkflowCatalogItem.resourceWorkflowCatalogItemCreate _ CatalogServer.client RF
             (mkWorld (mkRD "" O X) (mkStore n its) log) in
  fst r = [] /\ Id (w_d (snd r)) = int64ToString n /\ New (w_d (snd r)) = X.
Proof.
  intros Hf H1 H2 Hp r. subst r.
  destruct (catalog_create_on_server RF n its log O X fps Hp) as (E1 & E2 & E3).
  split; [exact E1|split; [exact E2|]]. rewrite E3. clear E1 E2 E3.
  destruct (createFilePayloads_shape RF X fps Hp) as (d1 & d2 & ->). clear Hp.
  rewrite fold_setLogo_fields, (observe_decode_create n X _ _ Hf).
  change (WorkflowCatalogItem.ImagePath (CatalogServer.decode n
            (WorkflowCatalogItem.wrapBody (WorkflowCatalogItem.createCatalogItem X)))) with "".
  change (WorkflowCatalogItem.DarkImagePath (CatalogServer.decode n
            (WorkflowCatalogItem.wrapBody (WorkflowCatalogItem.createCatalogItem X)))) with "".
  rewrite fold_logo_paths, fold_dark_paths by discriminate.
  rewrite (plain_logo_observed _ _ H1), (plain_logo_observed _ _ H2).
  destruct X; reflexivity.
Qed.

(** C1 (counterexample): on the reference servers, the round trip fails
    (a) for the Ansible Tower password, read back as the server-stored digest
    of ["secret"], not ["secret"]; and for the workflow catalog item (b) with a
    negative [form_id], which is not sent and reads back as 0, (c) with a logo
    name but no logo path, for which no logo is uploaded and the name reads
    back empty, (d) with a logo name containing ["_original"], which the read
    removes, and (e) with a logo name containing a slash, of which the read
    keeps the last segment. *)
Lemma create_read_roundtrip_counterexample :
  AnsibleTower.password (New (w_d (snd (AnsibleTower.resourceAnsibleTowerIntegrationCreate _
     AnsibleServer.client
     (mkWorld (mkRD "" towerEmpty
                 (AnsibleTower.mkAttrs "tower" true "https://tower.example.com" "admin" "secret" 0))
              (mkStore 1 []) [])))))
  = sha256_hex "secret" /\ sha256_hex "secret" <> "secret" /\
  WorkflowCatalogItem.form_id (New (w_d (snd (WorkflowCatalogItem.resourceWorkflowCatalogItemCreate _
     CatalogServer.client someFiles
     (mkWorld (mkRD "" catalogEmpty
                 (WorkflowCatalogItem.mkAttrs "item" [] "" "" true false 3 "instance" "" []
                    "" "" "" "" "public" (-1)))
              (mkStore 1 []) []))))) = 0 /\
  WorkflowCatalogItem.logo_image_name (New (w_d (snd (WorkflowCatalogItem.resourceWorkflowCatalogItemCreate _
     CatalogServer.client someFiles
     (mkWorld (mkRD "" catalogEmpty
                 (WorkflowCatalogItem.mkAttrs "item" [] "" "" true false 3 "instance" "" []
                    "logo.png" "" "" "" "public" 0))
              (mkStore 1 []) []))))) = "" /\
  WorkflowCatalogItem.logo_image_name (New (w_d (snd (WorkflowCatalogItem.resourceWorkflowCatalogItemCreate _
     CatalogServer.client someFiles
     (mkWorld (mkRD "" catalogEmpty
                 (WorkflowCatalogItem.mkAttrs "item" [] "" "" true false 3 "instance" "" []
                    "logo_original.png" "/tmp/logo.png" "" "" "public" 0))
              (mkStore 1 []) []))))) = "logo.png" /\
  WorkflowCatalogItem.logo_image_name (New (w_d (snd (WorkflowCatalogItem.resourceWorkflowCatalogItemCreate _
     CatalogServer.client someFiles
     (mkWorld (mkRD "" catalogEmpty
                 (WorkflowCatalogItem.mkAttrs "item" [] "" "" true false 3 "instance" "" []
                    "img/logo.png" "/tmp/logo.png" "" "" "public" 0))
              (mkStore 1 []) []))))) = "logo.png".
Proof.
  split; [vm_compute; reflexivity|].
  split; [vm_compute; discriminate|].
  repeat split; vm_compute; reflexivity.
Qed.

(** C1 (amended): after a successful create with desired attributes [X],
    followed by the read of the assigned identifier, on a server that stores
    the fields it is sent: the helm spec template observes exactly [X], for
    every source type (local, url, repository) and whether the server reports
    a repository source as ["git"] or ["repository"]; the workflow catalog
    item observes exactly [X] when its logo files can be read, [form_id] is
    not negative, and each logo name is either unset or comes with a logo
    path and contains neither a slash nor ["_original"]; the Ansible Tower
    integration observes [X]'s name, enabled flag, url and credential ID,
    while its password is observed as the stored SHA-256 hex digest of [X]'s
    password when [credential_id] is 0, and its username and password are
    observed empty otherwise.  Each create returns success and the
    identifier is the one the server assigned. *)
Theorem create_read_roundtrip :
  (forall repoTag n its log (Old X : Helm.Attrs),
     In repoTag ["git"; "repository"] ->
     In (Helm.source_type X) ["local"; "url"; "repository"] ->
     let r := Helm.resourceHelmSpecTemplateCreate _ (HelmServer.client repoTag)
                (mkWorld (mkRD "" Old X) (mkStore n its) log) in
     fst r = [] /\ Id (w_d (snd r)) = int64ToString n /\ New (w_d (snd r)) = X) /\
  (forall RF n its log (Old X : WorkflowCatalogItem.Attrs) fps,
     0 <= WorkflowCatalogItem.form_id X ->
     plain_logo (WorkflowCatalogItem.logo_image_name X) (WorkflowCatalogItem.logo_image_path X) ->
     plain_logo (WorkflowCatalogItem.dark_logo_image_name X)
                (WorkflowCatalogItem.dark_logo_image_path X) ->
     WorkflowCatalogItem.createFilePayloads RF X = inr fps ->
     let r := WorkflowCatalogItem.resourceWorkflowCatalogItemCreate _ CatalogServer.client RF
                (mkWorld (mkRD "" Old X) (mkStore n its) log) in
     fst r = [] /\ Id (w_d (snd r)) = int64ToString n /\ New (w_d (snd r)) = X) /\
  (forall n its log (Old X : AnsibleTower.Attrs),
     let r := AnsibleTower.resourceAnsibleTowerIntegrationCreate _ AnsibleServer.client
                (mkWorld (mkRD "" Old X) (mkStore n its) log) in
     let c0 := Z.eqb (AnsibleTower.credential_id X) 0 in
     fst r = [] /\ Id (w_d (snd r)) = int64ToString n /\
     New (w_d (snd r)) = AnsibleTower.mkAttrs (AnsibleTower.name X) (AnsibleTower.enabled X)
                           (AnsibleTower.url X)
                           (if c0 then AnsibleTower.username X else "")
                           (if c0 then sha256_hex (AnsibleTower.password X) else "")
                           (AnsibleTower.credential_id X)).
Proof.
  split; [|split].
  - intros repoTag n its log Old X.
    intros Hr Hs.
    destruct X as [nm st sc sp rid vr]; cbn in Hs.
    unfold Helm.resourceHelmSpecTemplateCreate, Helm.resourceHelmSpecTemplateRead, Helm.readResponse.
    unfold_monad. cbn -[int64ToString toInt64 intToString].
    rewrite (proj2 (String.eqb_neq _ _) (int64ToString_nonempty n)).
    cbn -[int64ToString toInt64 intToString].
    rewrite toInt64_int64ToString. unfold HelmServer.lookup. cbn -[int64ToString toInt64 intToString].
    rewrite Z.eqb_refl.
    destruct Hr as [<-|[<-|[]]]; destruct Hs as [<-|[<-|[<-|[]]]]; cbn; auto.
  - intros RF n its log Old X fps Hf H1 H2 Hp.
    exact (catalog_roundtrip RF n its log Old X fps Hf H1 H2 Hp).
  - intros n its log Old X.
    destruct X as [nm en u un pw cid]. cbv zeta. cbn [AnsibleTower.credential_id].
    unfold AnsibleTower.resourceAnsibleTowerIntegrationCreate, AnsibleTower.resourceAnsibleTowerIntegrationRead,
      AnsibleTower.readResponse.
    unfold_monad. cbn -[int64ToString toInt64 sha256_hex].
    rewrite (proj2 (String.eqb_neq _ _) (int64ToString_nonempty n)).
    cbn -[int64ToString toInt64 sha256_hex].
    rewrite toInt64_int64ToString. unfold AnsibleServer.lookup. cbn -[int64ToString toInt64 sha256_hex].
    rewrite Z.eqb_refl. cbn -[int64ToString toInt64 sha256_hex].
    destruct (Z.eqb_spec cid 0) as [->|Hc]; cbn -[int64ToString toInt64 sha256_hex]; [auto|].
    unfold AnsibleTower.observe, AnsibleServer.decode, AnsibleTower.wrapBody,
      AnsibleTower.createIntegration; cbn [AnsibleTower.credential_id].
    rewrite (proj2 (Z.eqb_neq _ _) Hc). cbn. auto.
Qed.

Lemma create_read_roundtrip_witness :
  New (w_d (snd (Helm.resourceHelmSpecTemplateCreate _ (HelmServer.client "git")
     (mkWorld (mkRD "" helmEmpty (Helm.mkAttrs "app" "repository" "" "charts/app" 5 "main"))
              (mkStore 1 []) []))))
  = Helm.mkAttrs "app" "repository" "" "charts/app" 5 "main" /\
  New (w_d (snd (WorkflowCatalogItem.resourceWorkflowCatalogItemCreate _ CatalogServer.client
     someFiles
     (mkWorld (mkRD "" catalogEmpty
                 (WorkflowCatalogItem.mkAttrs "item" ["a"] "d" "c" true false 3 "instance" "x" [4]
                    "logo.png" "/tmp/logo.png" "dark.png" "/tmp/dark.png" "public" 2))
              (mkStore 1 []) []))))
  = WorkflowCatalogItem.mkAttrs "item" ["a"] "d" "c" true false 3 "instance" "x" [4]
      "logo.png" "/tmp/logo.png" "dark.png" "/tmp/dark.png" "public" 2 /\
  New (w_d (snd (AnsibleTower.resourceAnsibleTowerIntegrationCreate _ AnsibleServer.client
     (mkWorld (mkRD "" towerEmpty
                 (AnsibleTower.mkAttrs "tower" true "https://tower.example.com" "admin" "secret" 0))
              (mkStore 1 []) []))))
  = AnsibleTower.mkAttrs "tower" true "https://tower.example.com" "admin" (sha256_hex "secret") 0.
Proof.
  destruct create_read_roundtrip as (H1 & H2 & H3).
  split; [|split].
  - destruct (H1 "git" 1 [] [] helmEmpty (Helm.mkAttrs "app" "repository" "" "charts/app" 5 "main")
                ltac:(cbn; auto) ltac:(cbn; auto)) as (_ & _ & E).
    exact E.
  - destruct (H2 someFiles 1 [] [] catalogEmpty
                (WorkflowCatalogItem.mkAttrs "item" ["a"] "d" "c" true false 3 "instance" "x" [4]
                   "logo.png" "/tmp/logo.png" "dark.png" "/tmp/dark.png" "public" 2)
                [WorkflowCatalogItem.mkFilePayload "logo" "logo.png" [137; 80];
                 WorkflowCatalogItem.mkFilePayload "darkLogo" "dark.png" [137; 80]])
      as (_ & _ & E).
    + cbn; lia.
    + right. split; [discriminate|split].
      * intros c Hc; cbn in Hc. repeat (destruct Hc as [<-|Hc]; [discriminate|]). destruct Hc.
      * apply short_no_original. cbn; lia.
    + right. split; [discriminate|split].
      * intros c Hc; cbn in Hc. repeat (destruct Hc as [<-|Hc]; [discriminate|]). destruct Hc.
      * apply short_no_original. cbn; lia.
    + vm_compute; reflexivity.
    + exact E.
  - destruct (H3 1 [] [] towerEmpty
                (AnsibleTower.mkAttrs "tower" true "https://tower.example.com" "admin" "secret" 0))
      as (_ & _ & E).
    exact E.
Defined.

(** * Further properties of the resources *)

(** ** Failure and success outcomes of the operations *)

(** A successful delete clears the identifier and returns success; a delete
    that fails with a status other than 404 returns the error and leaves the
    resource data as it was, for each of the three kinds.  Only the delete
    call is issued. *)
Theorem delete_outcome :
  (forall S (cl : Helm.Client S) (w : World Helm.Attrs S) s' u,
     Helm.DeleteSpecTemplate cl (toInt64 (Id (w_d w))) (w_srv w) = (s', ApiOk u) ->
     Helm.resourceHelmSpecTemplateDelete S cl w
     = ([], mkWorld (mkRD "" (Old (w_d w)) (New (w_d w))) s'
              (w_log w ++ [mkCall "DeleteSpecTemplate" [JNum (toInt64 (Id (w_d w)))]]))) /\
  (forall S (cl : Helm.Client S) (w : World Helm.Attrs S) s' st e,
     Helm.DeleteSpecTemplate cl (toInt64 (Id (w_d w))) (w_srv w) = (s', ApiErr st e) -> is404 st = false ->
     Helm.resourceHelmSpecTemplateDelete S cl w
     = ([e], mkWorld (w_d w) s' (w_log w ++ [mkCall "DeleteSpecTemplate" [JNum (toInt64 (Id (w_d w)))]]))) /\
  (forall S (cl : WorkflowCatalogItem.Client S) (w : World WorkflowCatalogItem.Attrs S) s' u,
     WorkflowCatalogItem.DeleteCatalogItem cl (toInt64 (Id (w_d w))) (w_srv w) = (s', ApiOk u) ->
     WorkflowCatalogItem.resourceWorkflowCatalogItemDelete S cl w
     = ([], mkWorld (mkRD "" (Old (w_d w)) (New (w_d w))) s'
              (w_log w ++ [mkCall "DeleteCatalogItem" [JNum (toInt64 (Id (w_d w)))]]))) /\
  (forall S (cl : WorkflowCatalogItem.Client S) (w : World WorkflowCatalogItem.Attrs S) s' st e,
     WorkflowCatalogItem.DeleteCatalogItem cl (toInt64 (Id (w_d w))) (w_srv w) = (s', ApiErr st e) ->
     WorkflowCatalogItem.resourceWorkflowCatalogItemDelete S cl w
     = ([e], mkWorld (w_d w) s' (w_log w ++ [mkCall "DeleteCatalogItem" [JNum (toInt64 (Id (w_d w)))]]))) /\
  (forall S (cl : AnsibleTower.Client S) (w : World AnsibleTower.Attrs S) s' u,
     AnsibleTower.DeleteIntegration cl (toInt64 (Id (w_d w))) (w_srv w) = (s', ApiOk u) ->
     AnsibleTower.resourceAnsibleTowerIntegrationDelete S cl w
     = ([], mkWorld (mkRD "" (Old (w_d w)) (New (w_d w))) s'
              (w_log w ++ [mkCall "DeleteIntegration" [JNum (toInt64 (Id (w_d w)))]]))) /\
  (forall S (cl : AnsibleTower.Client S) (w : World AnsibleTower.Attrs S) s' st e,
     AnsibleTower.DeleteIntegration cl (toInt64 (Id (w_d w))) (w_srv w) = (s', ApiErr st e) ->
     AnsibleTower.resourceAnsibleTowerIntegrationDelete S cl w
     = ([e], mkWorld (w_d w) s' (w_log w ++ [mkCall "DeleteIntegration" [JNum (toInt64 (Id (w_d w)))]]))).
Proof.
  repeat split; intros;
  unfold Helm.resourceHelmSpecTemplateDelete,
    WorkflowCatalogItem.resourceWorkflowCatalogItemDelete,
    AnsibleTower.resourceAnsibleTowerIntegrationDelete;
  unfold_monad;
  match goal with H : _ = (_, _) |- _ => rewrite H end; cbn beta iota zeta;
  try match goal with H : is404 _ = false |- _ => rewrite H end;
  try destruct (is404 _); reflexivity.
Qed.

(** When the create request fails, each create returns the error and leaves
    the resource data as it was (no identifier is set and no read follows):
    only the create call is issued. *)
Theorem create_error_outcome :
  (forall S (cl : Helm.Client S) (w : World Helm.Attrs S) s' st e,
     let req := Helm.requestBody (New (w_d w)) in
     Helm.CreateSpecTemplate cl req (w_srv w) = (s', ApiErr st e) ->
     Helm.resourceHelmSpecTemplateCreate S cl w
     = ([e], mkWorld (w_d w) s' (w_log w ++ [mkCall "CreateSpecTemplate" [req]]))) /\
  (forall S (cl : WorkflowCatalogItem.Client S) RF (w : World WorkflowCatalogItem.Attrs S) s' st e,
     let req := WorkflowCatalogItem.wrapBody (WorkflowCatalogItem.createCatalogItem (New (w_d w))) in
     WorkflowCatalogItem.CreateCatalogItem cl req (w_srv w) = (s', ApiErr st e) ->
     WorkflowCatalogItem.resourceWorkflowCatalogItemCreate S cl RF w
     = ([e], mkWorld (w_d w) s' (w_log w ++ [mkCall "CreateCatalogItem" [req]]))) /\
  (forall S (cl : AnsibleTower.Client S) (w : World AnsibleTower.Attrs S) s' st e,
     let req := AnsibleTower.wrapBody (AnsibleTower.createIntegration (New (w_d w))) in
     AnsibleTower.CreateIntegration cl req (w_srv w) = (s', ApiErr st e) ->
     AnsibleTower.resourceAnsibleTowerIntegrationCreate S cl w
     = ([e], mkWorld (w_d w) s' (w_log w ++ [mkCall "CreateIntegration" [req]]))).
Proof.
  repeat split; intros * H; repeat match goal with x := _ |- _ => subst x end;
  unfold Helm.resourceHelmSpecTemplateCreate, WorkflowCatalogItem.resourceWorkflowCatalogItemCreate,
    AnsibleTower.resourceAnsibleTowerIntegrationCreate;
  unfold_monad; rewrite H; reflexivity.
Qed.

(** When the update request fails, each update returns the error and leaves
    the resource data as it was: no logo is uploaded and no read follows. *)
Theorem update_error_outcome :
  (forall S (cl : Helm.Client S) (w : World Helm.Attrs S) s' st e,
     let id := toInt64 (Id (w_d w)) in
     let req := Helm.requestBody (New (w_d w)) in
     Helm.UpdateSpecTemplate cl id req (w_srv w) = (s', ApiErr st e) ->
     Helm.resourceHelmSpecTemplateUpdate S cl w
     = ([e], mkWorld (w_d w) s' (w_log w ++ [mkCall "UpdateSpecTemplate" [JNum id; req]]))) /\
  (forall S (cl : WorkflowCatalogItem.Client S) RF (w : World WorkflowCatalogItem.Attrs S) s' st e,
     let id := toInt64 (Id (w_d w)) in
     let req := WorkflowCatalogItem.wrapBody (WorkflowCatalogItem.updateCatalogItem (New (w_d w))) in
     WorkflowCatalogItem.UpdateCatalogItem cl id req (w_srv w) = (s', ApiErr st e) ->
     WorkflowCatalogItem.resourceWorkflowCatalogItemUpdate S cl RF w
     = ([e], mkWorld (w_d w) s' (w_log w ++ [mkCall "UpdateCatalogItem" [JNum id; req]]))) /\
  (forall S (cl : AnsibleTower.Client S) (w : World AnsibleTower.Attrs S) s' st e,
     let id := toInt64 (Id (w_d w)) in
     let req := AnsibleTower.wrapBody (AnsibleTower.updateIntegration (w_d w)) in
     AnsibleTower.UpdateIntegration cl id req (w_srv w) = (s', ApiErr st e) ->
     AnsibleTower.resourceAnsibleTowerIntegrationUpdate S cl w
     = ([e], mkWorld (w_d w) s' (w_log w ++ [mkCall "UpdateIntegration" [JNum id; req]]))).
Proof.
  repeat split; intros * H; repeat match goal with x := _ |- _ => subst x end;
  unfold Helm.resourceHelmSpecTemplateUpdate, WorkflowCatalogItem.resourceWorkflowCatalogItemUpdate,
    AnsibleTower.resourceAnsibleTowerIntegrationUpdate;
  unfold_monad; rewrite H; reflexivity.
Qed.

(** A workflow catalog item whose logo file cannot be read after the remote
    create succeeded: the create returns the file error without setting the
    identifier, uploading a logo or reading the item back, although the item
    now exists on the server.  On the reference server the new item is stored
    under the identifier the server assigned. *)
Theorem catalog_create_file_error_orphans_item :
  (forall S (cl : WorkflowCatalogItem.Client S) RF (w : World WorkflowCatalogItem.Attrs S) cid s1 e,
     let req := WorkflowCatalogItem.wrapBody (WorkflowCatalogItem.createCatalogItem (New (w_d w))) in
     WorkflowCatalogItem.CreateCatalogItem cl req (w_srv w) = (s1, ApiOk cid) ->
     WorkflowCatalogItem.createFilePayloads RF (New (w_d w)) = inl e ->
     WorkflowCatalogItem.resourceWorkflowCatalogItemCreate S cl RF w
     = ([e], mkWorld (w_d w) s1 (w_log w ++ [mkCall "CreateCatalogItem" [req]]))) /\
  (forall RF (w : World WorkflowCatalogItem.Attrs (Store WorkflowCatalogItem.CatalogItem)) e,
     WorkflowCatalogItem.createFilePayloads RF (New (w_d w)) = inl e ->
     let r := WorkflowCatalogItem.resourceWorkflowCatalogItemCreate _ CatalogServer.client RF w in
     fst r = [e] /\ Id (w_d (snd r)) = Id (w_d w) /\
     CatalogServer.lookup (next (w_srv w)) (w_srv (snd r))
     = Some (CatalogServer.decode (next (w_srv w))
               (WorkflowCatalogItem.wrapBody (WorkflowCatalogItem.createCatalogItem (New (w_d w)))))).
Proof.
  split.
  - intros * Hc Hf.
    unfold WorkflowCatalogItem.resourceWorkflowCatalogItemCreate.
    unfold_monad. fold req. rewrite Hc. cbn beta iota zeta. rewrite Hf. reflexivity.
  - intros RF w e Hf.
    unfold WorkflowCatalogItem.resourceWorkflowCatalogItemCreate.
    unfold_monad. cbn beta iota zeta. rewrite Hf. cbn.
    unfold CatalogServer.lookup. cbn. rewrite Z.eqb_refl. auto.
Qed.

(** A workflow catalog item update whose changed logo file cannot be read:
    the update returns the file error after the remote update, without
    uploading a logo, changing the identifier or reading the item back. *)
Theorem catalog_update_file_error :
  forall S (cl : WorkflowCatalogItem.Client S) RF (w : World WorkflowCatalogItem.Attrs S) cid s1 e,
    let id := toInt64 (Id (w_d w)) in
    let req := WorkflowCatalogItem.wrapBody (WorkflowCatalogItem.updateCatalogItem (New (w_d w))) in
    WorkflowCatalogItem.UpdateCatalogItem cl id req (w_srv w) = (s1, ApiOk cid) ->
    WorkflowCatalogItem.updateFilePayloads RF (w_d w) = inl e ->
    WorkflowCatalogItem.resourceWorkflowCatalogItemUpdate S cl RF w
    = ([e], mkWorld (w_d w) s1 (w_log w ++ [mkCall "UpdateCatalogItem" [JNum id; req]])).
Proof.
  intros * Hc Hf.
  unfold WorkflowCatalogItem.resourceWorkflowCatalogItemUpdate.
  unfold_monad. fold id req. rewrite Hc. cbn beta iota zeta. rewrite Hf. reflexivity.
Qed.

(** ** The logo uploads of the workflow catalog item *)

Lemma logoPayload_fnames RF c p path fname fps :
  WorkflowCatalogItem.logoPayload RF c p path fname = inr fps ->
  map WorkflowCatalogItem.FileName fps = if c then [fname] else [].
Proof.
  unfold WorkflowCatalogItem.logoPayload.
  destruct c; [destruct (RF path)|]; intro H; inversion H; reflexivity.
Qed.

(** After a successful remote create and file reads, the catalog item create
    issues exactly one logo upload, right after the create call, carrying one
    entry per logo whose path and name are both set (named ["logo"] and
    ["darkLogo"], with the configured file names); when no logo has both, the
    upload is still sent, with an empty file list and no file read. *)
Theorem catalog_create_logo_upload :
  (forall S (cl : WorkflowCatalogItem.Client S) RF (w : World WorkflowCatalogItem.Attrs S) cid s1 fps,
     let req := WorkflowCatalogItem.wrapBody (WorkflowCatalogItem.createCatalogItem (New (w_d w))) in
     WorkflowCatalogItem.CreateCatalogItem cl req (w_srv w) = (s1, ApiOk cid) ->
     WorkflowCatalogItem.createFilePayloads RF (New (w_d w)) = inr fps ->
     exists rest,
       w_log (snd (WorkflowCatalogItem.resourceWorkflowCatalogItemCreate S cl RF w))
       = w_log w ++ [mkCall "CreateCatalogItem" [req];
                     mkCall "UpdateCatalogItemLogo"
                       [JNum cid; JArr (map WorkflowCatalogItem.filePayloadJson fps)]] ++ rest) /\
  (forall RF (x : WorkflowCatalogItem.Attrs) fps,
     WorkflowCatalogItem.createFilePayloads RF x = inr fps ->
     let c1 := negb (String.eqb (WorkflowCatalogItem.logo_image_path x) "")
               && negb (String.eqb (WorkflowCatalogItem.logo_image_name x) "") in
     let c2 := negb (String.eqb (WorkflowCatalogItem.dark_logo_image_path x) "")
               && negb (String.eqb (WorkflowCatalogItem.dark_logo_image_name x) "") in
     map WorkflowCatalogItem.ParameterName fps
       = (if c1 then ["logo"] else []) ++ (if c2 then ["darkLogo"] else []) /\
     map WorkflowCatalogItem.FileName fps
       = (if c1 then [WorkflowCatalogItem.logo_image_name x] else []) ++
         (if c2 then [WorkflowCatalogItem.dark_logo_image_name x] else [])) /\
  (forall RF (x : WorkflowCatalogItem.Attrs),
     (WorkflowCatalogItem.logo_image_path x = "" \/ WorkflowCatalogItem.logo_image_name x = "") ->
     (WorkflowCatalogItem.dark_logo_image_path x = ""
      \/ WorkflowCatalogItem.dark_logo_image_name x = "") ->
     WorkflowCatalogItem.createFilePayloads RF x = inr []).
Proof.
  split; [|split].
  - intros * Hc Hf.
    unfold WorkflowCatalogItem.resourceWorkflowCatalogItemCreate, WorkflowCatalogItem.uploadLogos.
    unfold_monad. fold req. rewrite Hc. cbn beta iota zeta. rewrite Hf. cbn beta iota zeta.
    cbn [w_srv w_d w_log].
    destruct (WorkflowCatalogItem.UpdateCatalogItemLogo cl cid fps s1) as [s2 r].
    cbn beta iota zeta. cbn [w_srv w_d w_log Id Old New].
    match goal with |- context [WorkflowCatalogItem.resourceWorkflowCatalogItemRead S cl ?w3] =>
      destruct (catalog_read_log_ext S cl w3) as [l Hl];
      destruct (WorkflowCatalogItem.resourceWorkflowCatalogItemRead S cl w3) as [r3 w4] end.
    cbn in Hl |- *. rewrite Hl, <- !app_assoc. eexists. reflexivity.
  - intros RF x fps H c1 c2.
    unfold WorkflowCatalogItem.createFilePayloads, WorkflowCatalogItem.appendPayloads in H.
    destruct (WorkflowCatalogItem.logoPayload RF _ "logo" _ _) as [e1|l1] eqn:E1; [discriminate|].
    destruct (WorkflowCatalogItem.logoPayload RF _ "darkLogo" _ _) as [e2|l2] eqn:E2; [discriminate|].
    injection H as <-. rewrite !map_app.
    rewrite (logoPayload_names _ _ _ _ _ _ E1), (logoPayload_names _ _ _ _ _ _ E2),
      (logoPayload_fnames _ _ _ _ _ _ E1), (logoPayload_fnames _ _ _ _ _ _ E2).
    split; reflexivity.
  - intros RF x H1 H2.
    unfold WorkflowCatalogItem.createFilePayloads, WorkflowCatalogItem.appendPayloads,
      WorkflowCatalogItem.logoPayload.
    destruct H1 as [E|E]; rewrite E; [|rewrite andb_false_r];
    (destruct H2 as [E'|E']; rewrite E'; [|rewrite andb_false_r]); reflexivity.
Qed.

(** ** The helm spec template read *)

(** A successful read of the helm spec template (by name when there is no
    identifier, by identifier otherwise) adopts the remote identifier and
    name; the source type is the remote one, ["git"] being reported as
    ["repository"]; the content is taken only for a local source, the path
    only for a url or git source, the repository ID and git reference only
    for a git source, every other attribute keeping its value.  A response
    that cannot be decoded returns an error and leaves the resource data as it
    was. *)
Theorem helm_read_observed :
  forall S (cl : Helm.Client S) (w : World Helm.Attrs S) s' ot,
    (Id (w_d w) = "" /\ Helm.name (New (w_d w)) <> "" /\
     Helm.FindSpecTemplateByName cl (Helm.name (New (w_d w))) (w_srv w) = (s', ApiOk ot)) \/
    (Id (w_d w) <> "" /\
     Helm.GetSpecTemplate cl (toInt64 (Id (w_d w))) (w_srv w) = (s', ApiOk ot)) ->
    let r := Helm.resourceHelmSpecTemplateRead S cl w in
    let x := New (w_d w) in
    match ot with
    | None => fst r = ["json: cannot unmarshal response body"] /\ w_d (snd r) = w_d w
    | Some t =>
        let fl := Helm.File t in
        let st := Helm.Sourcetype fl in
        let git := String.eqb st "git" in
        fst r = [] /\
        w_d (snd r)
        = mkRD (intToString (Helm.ID t)) (Old (w_d w))
            (Helm.mkAttrs (Helm.Name t)
               (if git then "repository" else st)
               (if String.eqb st "local" then Helm.Content fl else Helm.spec_content x)
               (if String.eqb st "url" || git
                then set_string_json (Helm.Contentpath fl) (Helm.spec_path x)
                else Helm.spec_path x)
               (if git then Helm.RepositoryID fl else Helm.repository_id x)
               (if git then set_string_json (Helm.Contentref fl) (Helm.version_ref x)
                else Helm.version_ref x))
    end.
Proof.
  intros S cl w s' ot Hp.
  unfold Helm.resourceHelmSpecTemplateRead, Helm.readResponse.
  read_ok_path.
  all: destruct ot as [t|]; cbn; [|split; reflexivity].
  all: destruct t as [tid tn [st cr cp rid ct]]; cbn.
  all: destruct (String.eqb_spec st "local") as [->|H1]; [cbn; split; reflexivity|].
  all: destruct (String.eqb_spec st "url") as [->|H2]; [cbn; split; reflexivity|].
  all: destruct (String.eqb_spec st "git") as [->|H3]; cbn; split; reflexivity.
Qed.

(** ** The logo names derived by the workflow catalog item read *)

(** The logo names observed by a successful catalog item read: for an image
    stored as [dir/<base>_original<ext>] (no slash in [base] or [ext], no
    underscore in [base]) the observed name is [<base><ext>]; the configured
    logo paths are never changed by the read. *)
Theorem catalog_read_logo_names :
  forall (ci : WorkflowCatalogItem.CatalogItem) (x : WorkflowCatalogItem.Attrs) dir base ext,
    (forall c, In c (list_ascii_of_string base) -> c <> "/"%char /\ c <> "_"%char) ->
    (forall c, In c (list_ascii_of_string ext) -> c <> "/"%char) ->
    WorkflowCatalogItem.ImagePath ci
      = String.append dir (String "/" (String.append base (String.append "_original" ext))) ->
    let y := WorkflowCatalogItem.observe ci x in
    WorkflowCatalogItem.logo_image_name y = String.append base ext /\
    WorkflowCatalogItem.logo_image_path y = WorkflowCatalogItem.logo_image_path x /\
    WorkflowCatalogItem.dark_logo_image_path y = WorkflowCatalogItem.dark_logo_image_path x.
Proof.
  intros ci x dir base ext Hb He Hp. cbn. rewrite Hp.
  assert (Hf : forall c, In c (list_ascii_of_string
                 (String.append base (String.append "_original" ext))) -> c <> "/"%char).
  { intros c Hc. clear Hp.
    induction base as [|c0 base IH]; cbn in Hc.
    - destruct Hc as [<-|Hc]; [discriminate|].
      repeat (destruct Hc as [<-|Hc]; [discriminate|]). apply He; exact Hc.
    - destruct Hc as [<-|Hc].
      + apply (Hb c0); left; reflexivity.
      + apply IH; [intros c' Hc'; apply Hb; right; exact Hc' | exact Hc]. }
  rewrite (proj2 (last_split_slash_segments dir _ Hf)).
  rewrite (proj2 remove_first_original) by (intros c Hc; apply Hb; exact Hc).
  repeat split; reflexivity.
Qed.

(** ** Request bodies *)

Lemma jget_jset (k k' : string) (v : json) (m : list (string * json)) :
  jget k (jset k' v m) = if String.eqb k k' then Some v else jget k m.
Proof.
  induction m as [|[k0 v0] m IH]; cbn.
  - reflexivity.
  - destruct (String.eqb_spec k' k0) as [->|Hne]; cbn.
    + destruct (String.eqb k k0); reflexivity.
    + rewrite IH. destruct (String.eqb_spec k k') as [->|]; [|reflexivity].
      rewrite (proj2 (String.eqb_neq _ _) Hne). reflexivity.
Qed.

Ltac jget_cases k :=
  rewrite ?jget_jset; cbn [jget];
  repeat match goal with
         | |- context [String.eqb k ?s] => destruct (String.eqb_spec k s) as [->|?]; cbn
         end.

(** The [file] object of the helm spec template request, sent by create and
    update alike: it always carries the source type; a local or url source
    adds the content and the path and no other entry; a repository source
    adds the path, the git reference and the repository ID and no other entry
    (in particular no inline content); any other source type sends the source
    type alone. *)
Theorem helm_source_options :
  forall x : Helm.Attrs,
    let so := Helm.sourceOptions x in
    let st := Helm.source_type x in
    jfield "file" (json_of (jfield "specTemplate" (Helm.requestBody x))) = Some (JObj so) /\
    jget "sourceType" so = Some (JStr st) /\
    ((st = "local" \/ st = "url") ->
       jget "content" so = Some (JStr (Helm.spec_content x)) /\
       jget "contentPath" so = Some (JStr (Helm.spec_path x)) /\
       jget "contentRef" so = None /\ jget "repository" so = None /\
       (forall k, ~ In k ["sourceType"; "content"; "contentPath"] -> jget k so = None)) /\
    (st = "repository" ->
       jget "content" so = None /\
       jget "contentPath" so = Some (JStr (Helm.spec_path x)) /\
       jget "contentRef" so = Some (JStr (Helm.version_ref x)) /\
       jget "repository" so = Some (JObj [("id", JNum (Helm.repository_id x))]) /\
       (forall k, ~ In k ["sourceType"; "contentPath"; "contentRef"; "repository"] ->
                  jget k so = None)) /\
    (~ In st ["local"; "url"; "repository"] ->
       forall k, k <> "sourceType" -> jget k so = None).
Proof.
  intros x so st. subst so st.
  destruct x as [nm st sc sp rid vr]; cbn [Helm.source_type Helm.spec_content Helm.spec_path
    Helm.version_ref Helm.repository_id].
  split; [reflexivity|].
  unfold Helm.sourceOptions; cbn [Helm.source_type Helm.spec_content Helm.spec_path
    Helm.version_ref Helm.repository_id].
  destruct (String.eqb_spec st "local") as [->|H1].
  { cbn. split; [reflexivity|]. split; [intros _; repeat split; try reflexivity;
         intros k Hk; jget_cases k; try reflexivity; exfalso; apply Hk; cbn; tauto|].
    split; [intro H; discriminate|]. intro H; exfalso; apply H; left; reflexivity. }
  destruct (String.eqb_spec st "url") as [->|H2].
  { cbn. split; [reflexivity|]. split; [intros _; repeat split; try reflexivity;
         intros k Hk; jget_cases k; try reflexivity; exfalso; apply Hk; cbn; tauto|].
    split; [intro H; discriminate|]. intro H; exfalso; apply H; right; left; reflexivity. }
  destruct (String.eqb_spec st "repository") as [->|H3].
  { cbn. split; [reflexivity|]. split; [intros [H|H]; discriminate|].
    split; [intros _; repeat split; try reflexivity;
         intros k Hk; jget_cases k; try reflexivity; exfalso; apply Hk; cbn; tauto|].
    intro H; exfalso; apply H; right; right; left; reflexivity. }
  cbn. split; [reflexivity|]. split; [intros [H|H]; congruence|].
  split; [intro H; congruence|].
  intros _ k Hk. destruct (String.eqb_spec k "sourceType"); [congruence|reflexivity].
Qed.

(** The catalog item bodies of create and update carry the same entries
    except [iconPath], sent by create only; both always send the labels (an
    empty list for no labels), and send the form (with [formType]) exactly
    when [form_id] is positive. *)
Theorem catalog_create_update_bodies :
  forall x : WorkflowCatalogItem.Attrs,
    let cb := WorkflowCatalogItem.createCatalogItem x in
    let ub := WorkflowCatalogItem.updateCatalogItem x in
    (forall k, k <> "iconPath" -> jget k cb = jget k ub) /\
    jget "iconPath" cb = Some (JStr "custom") /\ jget "iconPath" ub = None /\
    jget "labels" ub = Some (JArr (map JStr (WorkflowCatalogItem.labels x))) /\
    jget "form" ub
      = (if Z.ltb 0 (WorkflowCatalogItem.form_id x)
         then Some (JObj [("id", JNum (WorkflowCatalogItem.form_id x))]) else None) /\
    jget "formType" ub
      = (if Z.ltb 0 (WorkflowCatalogItem.form_id x) then Some (JStr "form") else None).
Proof.
  intros x cb ub. subst cb ub.
  unfold WorkflowCatalogItem.createCatalogItem, WorkflowCatalogItem.updateCatalogItem,
    WorkflowCatalogItem.formPart.
  assert (HL : JArr (WorkflowCatalogItem.labelsPayload x)
               = JArr (map JStr (WorkflowCatalogItem.labels x))).
  { unfold WorkflowCatalogItem.labelsPayload.
    destruct (WorkflowCatalogItem.labels x); reflexivity. }
  rewrite !HL.
  destruct (Z.ltb 0 (WorkflowCatalogItem.form_id x));
    (split; [intros k Hk; jget_cases k; first [reflexivity | congruence] |]);
    rewrite ?jget_jset; cbn; repeat split; reflexivity.
Qed.

(** The integration bodies of create and update: with [credential_id] 0 and
    both [username] and [password] changed, they carry the same entries; with a
    nonzero [credential_id], neither sends the username or the password. *)
Theorem tower_create_update_bodies :
  (forall d : RD AnsibleTower.Attrs,
     AnsibleTower.credential_id (New d) = 0 ->
     AnsibleTower.HasChange String.eqb AnsibleTower.username d = true ->
     AnsibleTower.HasChange String.eqb AnsibleTower.password d = true ->
     forall k, jget k (AnsibleTower.createIntegration (New d))
               = jget k (AnsibleTower.updateIntegration d)) /\
  (forall d : RD AnsibleTower.Attrs,
     AnsibleTower.credential_id (New d) <> 0 ->
     jget "serviceUsername" (AnsibleTower.createIntegration (New d)) = None /\
     jget "servicePassword" (AnsibleTower.createIntegration (New d)) = None /\
     jget "serviceUsername" (AnsibleTower.updateIntegration d) = None /\
     jget "servicePassword" (AnsibleTower.updateIntegration d) = None).
Proof.
  split.
  - intros d Hc Hu Hp k.
    unfold AnsibleTower.createIntegration, AnsibleTower.updateIntegration.
    rewrite Hc, Hu, Hp. cbn [Z.eqb negb].
    jget_cases k; reflexivity.
  - intros d Hc.
    unfold AnsibleTower.createIntegration, AnsibleTower.updateIntegration.
    rewrite (proj2 (Z.eqb_neq _ _) Hc). cbn. repeat split; reflexivity.
Qed.

(** ** Composition of the operations on the reference servers *)

Ltac destruct_ifs :=
  repeat match goal with
         | |- context [if ?b then _ else _] => destruct b
         end.

Lemma helm_create_server_state repoTag n its log (Old X : Helm.Attrs) :
  let w1 := snd (Helm.resourceHelmSpecTemplateCreate _ (HelmServer.client repoTag)
                   (mkWorld (mkRD "" Old X) (mkStore n its) log)) in
  Id (w_d w1) = int64ToString n /\
  w_srv w1 = mkStore (n + 1) (HelmServer.decode repoTag n (Helm.requestBody X) :: its).
Proof.
  cbv zeta.
  unfold Helm.resourceHelmSpecTemplateCreate, Helm.resourceHelmSpecTemplateRead, Helm.readResponse.
  unfold_monad. cbn -[int64ToString toInt64 intToString Helm.requestBody].
  rewrite (proj2 (String.eqb_neq _ _) (int64ToString_nonempty n)).
  cbn -[int64ToString toInt64 intToString Helm.requestBody].
  rewrite toInt64_int64ToString. unfold HelmServer.lookup.
  cbn -[int64ToString toInt64 intToString Helm.requestBody].
  rewrite Z.eqb_refl. cbn -[int64ToString toInt64 intToString Helm.requestBody].
  destruct_ifs; cbn -[int64ToString toInt64 intToString Helm.requestBody]; auto.
Qed.

Lemma tower_create_server_state n its log (Old X : AnsibleTower.Attrs) :
  let w1 := snd (AnsibleTower.resourceAnsibleTowerIntegrationCreate _ AnsibleServer.client
                   (mkWorld (mkRD "" Old X) (mkStore n its) log)) in
  Id (w_d w1) = int64ToString n /\
  w_srv w1 = mkStore (n + 1)
               (AnsibleServer.decode n (AnsibleTower.wrapBody (AnsibleTower.createIntegration X)) :: its).
Proof.
  cbv zeta.
  unfold AnsibleTower.resourceAnsibleTowerIntegrationCreate, AnsibleTower.resourceAnsibleTowerIntegrationRead,
    AnsibleTower.readResponse.
  unfold_monad. cbn -[int64ToString toInt64 sha256_hex AnsibleTower.createIntegration].
  rewrite (proj2 (String.eqb_neq _ _) (int64ToString_nonempty n)).
  cbn -[int64ToString toInt64 sha256_hex AnsibleTower.createIntegration].
  rewrite toInt64_int64ToString. unfold AnsibleServer.lookup.
  cbn -[int64ToString toInt64 sha256_hex AnsibleTower.createIntegration].
  rewrite Z.eqb_refl. cbn -[int64ToString toInt64 sha256_hex AnsibleTower.createIntegration].
  destruct_ifs; cbn -[int64ToString toInt64 sha256_hex AnsibleTower.createIntegration]; auto.
Qed.

Lemma filter_ID_find {T} (ID : T -> Z) (n : Z) (l : list T) :
  find (fun t => Z.eqb (ID t) n) (filter (fun t => negb (Z.eqb (ID t) n)) l) = None.
Proof.
  induction l as [|t l IH]; cbn; [reflexivity|].
  destruct (Z.eqb (ID t) n) eqn:E; cbn; [exact IH|]. rewrite E. exact IH.
Qed.

(** A create followed by a delete on the reference servers: the delete
    addresses the identifier the create stored, succeeds, clears the
    identifier, and leaves the server with the items it had before (minus
    any older item under the same identifier). *)
Theorem create_then_delete :
  (forall repoTag n its log (Old X : Helm.Attrs),
     let w1 := snd (Helm.resourceHelmSpecTemplateCreate _ (HelmServer.client repoTag)
                      (mkWorld (mkRD "" Old X) (mkStore n its) log)) in
     let r := Helm.resourceHelmSpecTemplateDelete _ (HelmServer.client repoTag) w1 in
     fst r = [] /\ Id (w_d (snd r)) = "" /\
     items (w_srv (snd r)) = filter (fun t => negb (Z.eqb (Helm.ID t) n)) its /\
     HelmServer.lookup n (w_srv (snd r)) = None) /\
  (forall n its log (Old X : AnsibleTower.Attrs),
     let w1 := snd (AnsibleTower.resourceAnsibleTowerIntegrationCreate _ AnsibleServer.client
                      (mkWorld (mkRD "" Old X) (mkStore n its) log)) in
     let r := AnsibleTower.resourceAnsibleTowerIntegrationDelete _ AnsibleServer.client w1 in
     fst r = [] /\ Id (w_d (snd r)) = "" /\
     items (w_srv (snd r)) = filter (fun t => negb (Z.eqb (AnsibleTower.ID t) n)) its /\
     AnsibleServer.lookup n (w_srv (snd r)) = None).
Proof.
  split.
  - intros repoTag n its log Old X w1 r. subst r.
    destruct (helm_create_server_state repoTag n its log Old X) as [Hid Hs].
    fold w1 in Hid, Hs.
    destruct w1 as [[i o nw] s l]; cbn in Hid, Hs; subst i s.
    unfold Helm.resourceHelmSpecTemplateDelete; unfold_monad.
    cbn -[int64ToString toInt64]. rewrite toInt64_int64ToString.
    unfold HelmServer.lookup; cbn -[int64ToString toInt64]. rewrite Z.eqb_refl.
    cbn -[int64ToString toInt64]. rewrite ?Z.eqb_refl. cbn.
    split; [reflexivity|split; [reflexivity|split; [reflexivity|]]].
    apply filter_ID_find.
  - intros n its log Old X w1 r. subst r.
    destruct (tower_create_server_state n its log Old X) as [Hid Hs].
    fold w1 in Hid, Hs.
    destruct w1 as [[i o nw] s l]; cbn in Hid, Hs; subst i s.
    unfold AnsibleTower.resourceAnsibleTowerIntegrationDelete; unfold_monad.
    cbn -[int64ToString toInt64]. rewrite toInt64_int64ToString.
    unfold AnsibleServer.lookup; cbn -[int64ToString toInt64]. rewrite Z.eqb_refl.
    cbn -[int64ToString toInt64]. rewrite ?Z.eqb_refl. cbn.
    split; [reflexivity|split; [reflexivity|split; [reflexivity|]]].
    apply filter_ID_find.
Qed.

(** An update of an existing helm spec template on the reference server
    (stored under the identifier in state, for any local, url or repository
    source) succeeds, keeps the identifier, and the read that follows gives
    back the desired configuration. *)
Theorem helm_update_roundtrip :
  forall repoTag sid n its log t (Old X : Helm.Attrs),
    In repoTag ["git"; "repository"] ->
    In (Helm.source_type X) ["local"; "url"; "repository"] ->
    HelmServer.lookup sid (mkStore n its) = Some t ->
    let r := Helm.resourceHelmSpecTemplateUpdate _ (HelmServer.client repoTag)
               (mkWorld (mkRD (int64ToString sid) Old X) (mkStore n its) log) in
    fst r = [] /\ Id (w_d (snd r)) = int64ToString sid /\ New (w_d (snd r)) = X.
Proof.
  intros repoTag sid n its log t Old X Hr Hs Hl r. subst r.
  destruct X as [nm st sc sp rid vr]; cbn in Hs.
  unfold Helm.resourceHelmSpecTemplateUpdate, Helm.resourceHelmSpecTemplateRead, Helm.readResponse.
  unfold_monad. cbn -[int64ToString toInt64 intToString HelmServer.lookup].
  rewrite toInt64_int64ToString, Hl.
  cbn -[int64ToString toInt64 intToString].
  rewrite (proj2 (String.eqb_neq _ _) (int64ToString_nonempty sid)).
  cbn -[int64ToString toInt64 intToString].
  rewrite toInt64_int64ToString. unfold HelmServer.lookup. cbn -[int64ToString toInt64 intToString].
  rewrite Z.eqb_refl.
  destruct Hr as [<-|[<-|[]]]; destruct Hs as [<-|[<-|[<-|[]]]]; cbn; auto.
Qed.

(** After an Ansible Tower integration is created with [credential_id] 0 on
    the reference server (which keeps only the SHA-256 hash of the password),
    the read stores the hash, and the password's diff suppression then finds
    no change against the configured plaintext; the username reads back as
    configured. *)
Theorem tower_create_password_no_drift :
  forall n its log (Old X : AnsibleTower.Attrs),
    AnsibleTower.credential_id X = 0 ->
    let r := AnsibleTower.resourceAnsibleTowerIntegrationCreate _ AnsibleServer.client
               (mkWorld (mkRD "" Old X) (mkStore n its) log) in
    fst r = [] /\
    AnsibleTower.username (New (w_d (snd r))) = AnsibleTower.username X /\
    passwordDiffSuppress (AnsibleTower.password (New (w_d (snd r))))
                                      (AnsibleTower.password X) = true.
Proof.
  intros n its log Old X Hc r. subst r.
  destruct X as [nm en u un pw cid]. cbn [AnsibleTower.credential_id] in Hc. subst cid.
  unfold AnsibleTower.resourceAnsibleTowerIntegrationCreate, AnsibleTower.resourceAnsibleTowerIntegrationRead,
    AnsibleTower.readResponse.
  unfold_monad. cbn -[int64ToString toInt64 sha256_hex].
  rewrite (proj2 (String.eqb_neq _ _) (int64ToString_nonempty n)).
  cbn -[int64ToString toInt64 sha256_hex].
  rewrite toInt64_int64ToString. unfold AnsibleServer.lookup. cbn -[int64ToString toInt64 sha256_hex].
  rewrite Z.eqb_refl. cbn -[int64ToString toInt64 sha256_hex EqualFold].
  split; [reflexivity|split; [reflexivity|]].
  unfold passwordDiffSuppress. fold (sha256_hex pw). apply EqualFold_refl.
Qed.

(** ** Instances of the further properties *)

Lemma delete_outcome_witness :
  let hs := mkStore 2 [HelmServer.decode "git" 1 (Helm.requestBody helmEmpty)] in
  let cs := mkStore 2 [CatalogServer.decode 1
              (WorkflowCatalogItem.wrapBody (WorkflowCatalogItem.createCatalogItem catalogEmpty))] in
  let ts := mkStore 2 [AnsibleServer.decode 1
              (AnsibleTower.wrapBody (AnsibleTower.createIntegration towerEmpty))] in
  Helm.resourceHelmSpecTemplateDelete _ (HelmServer.client "git")
    (mkWorld (mkRD "1" helmEmpty helmEmpty) hs [])
  = ([], mkWorld (mkRD "" helmEmpty helmEmpty) (mkStore 2 [])
           ([] ++ [mkCall "DeleteSpecTemplate" [JNum (toInt64 "1")]])) /\
  Helm.resourceHelmSpecTemplateDelete _ helmFails (mkWorld (mkRD "1" helmEmpty helmEmpty) tt [])
  = (["500 Internal Server Error"], mkWorld (mkRD "1" helmEmpty helmEmpty) tt
           ([] ++ [mkCall "DeleteSpecTemplate" [JNum (toInt64 "1")]])) /\
  WorkflowCatalogItem.resourceWorkflowCatalogItemDelete _ CatalogServer.client
    (mkWorld (mkRD "1" catalogEmpty catalogEmpty) cs [])
  = ([], mkWorld (mkRD "" catalogEmpty catalogEmpty) (mkStore 2 [])
           ([] ++ [mkCall "DeleteCatalogItem" [JNum (toInt64 "1")]])) /\
  WorkflowCatalogItem.resourceWorkflowCatalogItemDelete _ catalogFails
    (mkWorld (mkRD "1" catalogEmpty catalogEmpty) tt [])
  = (["500 Internal Server Error"], mkWorld (mkRD "1" catalogEmpty catalogEmpty) tt
           ([] ++ [mkCall "DeleteCatalogItem" [JNum (toInt64 "1")]])) /\
  AnsibleTower.resourceAnsibleTowerIntegrationDelete _ AnsibleServer.client
    (mkWorld (mkRD "1" towerEmpty towerEmpty) ts [])
  = ([], mkWorld (mkRD "" towerEmpty towerEmpty) (mkStore 2 [])
           ([] ++ [mkCall "DeleteIntegration" [JNum (toInt64 "1")]])) /\
  AnsibleTower.resourceAnsibleTowerIntegrationDelete _ towerFails
    (mkWorld (mkRD "1" towerEmpty towerEmpty) tt [])
  = (["500 Internal Server Error"], mkWorld (mkRD "1" towerEmpty towerEmpty) tt
           ([] ++ [mkCall "DeleteIntegration" [JNum (toInt64 "1")]])).
Proof.
  cbv zeta.
  destruct delete_outcome as (H1 & H2 & H3 & H4 & H5 & H6).
  split; [apply H1 with (u := tt); vm_compute; reflexivity|].
  split; [apply H2 with (st := Some 500); vm_compute; reflexivity|].
  split; [apply H3 with (u := tt); vm_compute; reflexivity|].
  split; [apply H4 with (st := Some 500); vm_compute; reflexivity|].
  split; [apply H5 with (u := tt); vm_compute; reflexivity|].
  apply H6 with (st := Some 500); vm_compute; reflexivity.
Defined.

Lemma create_error_outcome_witness :
  Helm.resourceHelmSpecTemplateCreate _ helmFails (mkWorld (mkRD "" helmEmpty helmEmpty) tt [])
  = (["500 Internal Server Error"], mkWorld (mkRD "" helmEmpty helmEmpty) tt
       ([] ++ [mkCall "CreateSpecTemplate" [Helm.requestBody helmEmpty]])) /\
  WorkflowCatalogItem.resourceWorkflowCatalogItemCreate _ catalogFails someFiles
    (mkWorld (mkRD "" catalogEmpty catalogEmpty) tt [])
  = (["500 Internal Server Error"], mkWorld (mkRD "" catalogEmpty catalogEmpty) tt
       ([] ++ [mkCall "CreateCatalogItem"
                 [WorkflowCatalogItem.wrapBody (WorkflowCatalogItem.createCatalogItem catalogEmpty)]])) /\
  AnsibleTower.resourceAnsibleTowerIntegrationCreate _ towerFails
    (mkWorld (mkRD "" towerEmpty towerEmpty) tt [])
  = (["500 Internal Server Error"], mkWorld (mkRD "" towerEmpty towerEmpty) tt
       ([] ++ [mkCall "CreateIntegration"
                 [AnsibleTower.wrapBody (AnsibleTower.createIntegration towerEmpty)]])).
Proof.
  destruct create_error_outcome as (H1 & H2 & H3).
  split; [apply H1 with (st := Some 500); vm_compute; reflexivity|].
  split; [apply H2 with (st := Some 500); vm_compute; reflexivity|].
  apply H3 with (st := Some 500); vm_compute; reflexivity.
Defined.

Lemma update_error_outcome_witness :
  Helm.resourceHelmSpecTemplateUpdate _ helmFails (mkWorld (mkRD "1" helmEmpty helmEmpty) tt [])
  = (["500 Internal Server Error"], mkWorld (mkRD "1" helmEmpty helmEmpty) tt
       ([] ++ [mkCall "UpdateSpecTemplate" [JNum (toInt64 "1"); Helm.requestBody helmEmpty]])) /\
  WorkflowCatalogItem.resourceWorkflowCatalogItemUpdate _ catalogFails someFiles
    (mkWorld (mkRD "1" catalogEmpty catalogEmpty) tt [])
  = (["500 Internal Server Error"], mkWorld (mkRD "1" catalogEmpty catalogEmpty) tt
       ([] ++ [mkCall "UpdateCatalogItem"
                 [JNum (toInt64 "1");
                  WorkflowCatalogItem.wrapBody (WorkflowCatalogItem.updateCatalogItem catalogEmpty)]])) /\
  AnsibleTower.resourceAnsibleTowerIntegrationUpdate _ towerFails
    (mkWorld (mkRD "1" towerEmpty towerEmpty) tt [])
  = (["500 Internal Server Error"], mkWorld (mkRD "1" towerEmpty towerEmpty) tt
       ([] ++ [mkCall "UpdateIntegration"
                 [JNum (toInt64 "1");
                  AnsibleTower.wrapBody (AnsibleTower.updateIntegration (mkRD "1" towerEmpty towerEmpty))]])).
Proof.
  destruct update_error_outcome as (H1 & H2 & H3).
  split; [apply H1 with (st := Some 500); vm_compute; reflexivity|].
  split; [apply H2 with (st := Some 500); vm_compute; reflexivity|].
  apply H3 with (st := Some 500); vm_compute; reflexivity.
Defined.

Lemma catalog_create_file_error_orphans_item_witness :
  let x := WorkflowCatalogItem.mkAttrs "item" [] "" "" true false 3 "instance" "" []
             "logo.png" "/tmp/logo.png" "" "" "public" 0 in
  let r := WorkflowCatalogItem.resourceWorkflowCatalogItemCreate _ CatalogServer.client noFiles
             (mkWorld (mkRD "" catalogEmpty x) (mkStore 1 []) []) in
  WorkflowCatalogItem.resourceWorkflowCatalogItemCreate _ catalogLogoFails noFiles
    (mkWorld (mkRD "" catalogEmpty x) tt [])
  = (["open /tmp/logo.png: cannot read file"], mkWorld (mkRD "" catalogEmpty x) tt
       ([] ++ [mkCall "CreateCatalogItem"
                 [WorkflowCatalogItem.wrapBody (WorkflowCatalogItem.createCatalogItem x)]])) /\
  (fst r = ["open /tmp/logo.png: cannot read file"] /\ Id (w_d (snd r)) = "" /\
   CatalogServer.lookup 1 (w_srv (snd r))
   = Some (CatalogServer.decode 1 (WorkflowCatalogItem.wrapBody (WorkflowCatalogItem.createCatalogItem x)))).
Proof.
  cbv zeta.
  destruct catalog_create_file_error_orphans_item as (H1 & H2).
  split.
  - apply H1 with (cid := 7); vm_compute; reflexivity.
  - apply (H2 noFiles
             (mkWorld (mkRD "" catalogEmpty
                (WorkflowCatalogItem.mkAttrs "item" [] "" "" true false 3 "instance" "" []
                   "logo.png" "/tmp/logo.png" "" "" "public" 0)) (mkStore 1 []) [])
             "open /tmp/logo.png: cannot read file").
    vm_compute; reflexivity.
Defined.

Lemma catalog_update_file_error_witness :
  let t0 := CatalogServer.decode 1
              (WorkflowCatalogItem.wrapBody (WorkflowCatalogItem.createCatalogItem catalogEmpty)) in
  let s0 := mkStore 2 [t0] in
  let x := WorkflowCatalogItem.mkAttrs "" [] "" "" false false 0 "" "" []
             "logo.png" "/tmp/logo.png" "" "" "" 0 in
  let req := WorkflowCatalogItem.wrapBody (WorkflowCatalogItem.updateCatalogItem x) in
  WorkflowCatalogItem.resourceWorkflowCatalogItemUpdate _ CatalogServer.client noFiles
    (mkWorld (mkRD "1" catalogEmpty x) s0 [])
  = (["open /tmp/logo.png: cannot read file"],
     mkWorld (mkRD "1" catalogEmpty x)
       (CatalogServer.replace 1 (CatalogServer.withImages t0 (CatalogServer.decode 1 req)) s0)
       ([] ++ [mkCall "UpdateCatalogItem" [JNum (toInt64 "1"); req]])).
Proof.
  cbv zeta.
  apply catalog_update_file_error with (cid := 1); vm_compute; reflexivity.
Defined.

Lemma catalog_create_logo_upload_witness :
  let x := WorkflowCatalogItem.mkAttrs "item" [] "" "" true false 3 "instance" "" []
             "logo.png" "/tmp/logo.png" "" "" "public" 0 in
  let fps := [WorkflowCatalogItem.mkFilePayload "logo" "logo.png" [137; 80]] in
  (exists rest,
     w_log (snd (WorkflowCatalogItem.resourceWorkflowCatalogItemCreate _ catalogLogoFails someFiles
                   (mkWorld (mkRD "" catalogEmpty x) tt [])))
     = [] ++ [mkCall "CreateCatalogItem"
                [WorkflowCatalogItem.wrapBody (WorkflowCatalogItem.createCatalogItem x)];
              mkCall "UpdateCatalogItemLogo" [JNum 7; JArr (map WorkflowCatalogItem.filePayloadJson fps)]]
          ++ rest) /\
  (map WorkflowCatalogItem.ParameterName fps = ["logo"] /\
   map WorkflowCatalogItem.FileName fps = ["logo.png"]) /\
  WorkflowCatalogItem.createFilePayloads someFiles
    (WorkflowCatalogItem.mkAttrs "item" [] "" "" true false 3 "instance" "" []
       "logo.png" "" "dark.png" "" "public" 0) = inr [].
Proof.
  cbv zeta.
  destruct catalog_create_logo_upload as (H1 & H2 & H3).
  split; [|split].
  - apply H1 with (s1 := tt); vm_compute; reflexivity.
  - apply (H2 someFiles
             (WorkflowCatalogItem.mkAttrs "item" [] "" "" true false 3 "instance" "" []
                "logo.png" "/tmp/logo.png" "" "" "public" 0)).
    vm_compute; reflexivity.
  - apply H3; left; reflexivity.
Defined.

Lemma helm_read_observed_witness :
  let X := Helm.mkAttrs "app" "repository" "" "charts/app" 5 "main" in
  let t := HelmServer.decode "git" 1 (Helm.requestBody X) in
  let r := Helm.resourceHelmSpecTemplateRead _ (HelmServer.client "git")
             (mkWorld (mkRD "1" helmEmpty helmEmpty) (mkStore 2 [t]) []) in
  fst r = [] /\ w_d (snd r) = mkRD "1" helmEmpty X.
Proof.
  cbv zeta.
  pose proof (helm_read_observed _ (HelmServer.client "git")
                (mkWorld (mkRD "1" helmEmpty helmEmpty)
                   (mkStore 2 [HelmServer.decode "git" 1
                                 (Helm.requestBody (Helm.mkAttrs "app" "repository" "" "charts/app" 5 "main"))]) [])
                (mkStore 2 [HelmServer.decode "git" 1
                              (Helm.requestBody (Helm.mkAttrs "app" "repository" "" "charts/app" 5 "main"))])
                (Some (HelmServer.decode "git" 1
                         (Helm.requestBody (Helm.mkAttrs "app" "repository" "" "charts/app" 5 "main")))))
    as H.
  vm_compute in H |- *. apply H. right. split; [discriminate | reflexivity].
Defined.

Lemma catalog_read_logo_names_witness :
  let ci := WorkflowCatalogItem.mkCatalogItem 7 "item" [] "" "" true false [] "" "instance" "public" 0 3
              "/storage/logos/7/logo_original.png" "" in
  let y := WorkflowCatalogItem.observe ci catalogEmpty in
  WorkflowCatalogItem.logo_image_name y = "logo.png" /\
  WorkflowCatalogItem.logo_image_path y = "" /\
  WorkflowCatalogItem.dark_logo_image_path y = "".
Proof.
  cbv zeta.
  apply (catalog_read_logo_names _ catalogEmpty "/storage/logos/7" "logo" ".png").
  - intros c Hc. cbn in Hc.
    repeat (destruct Hc as [<-|Hc]; [split; discriminate|]). destruct Hc.
  - intros c Hc. cbn in Hc.
    repeat (destruct Hc as [<-|Hc]; [discriminate|]). destruct Hc.
  - reflexivity.
Defined.

Lemma helm_source_options_witness :
  let xr := Helm.mkAttrs "app" "repository" "ignored" "charts/app" 5 "main" in
  let xl := Helm.mkAttrs "app" "local" "spec: 1" "spec.yaml" 0 "" in
  let xo := Helm.mkAttrs "app" "oci" "spec: 1" "spec.yaml" 5 "main" in
  jget "content" (Helm.sourceOptions xr) = None /\
  jget "repository" (Helm.sourceOptions xr) = Some (JObj [("id", JNum 5)]) /\
  jget "content" (Helm.sourceOptions xl) = Some (JStr "spec: 1") /\
  jget "contentRef" (Helm.sourceOptions xl) = None /\
  jget "version" (Helm.sourceOptions xl) = None /\
  jget "contentPath" (Helm.sourceOptions xo) = None.
Proof.
  cbv zeta.
  destruct (helm_source_options (Helm.mkAttrs "app" "repository" "ignored" "charts/app" 5 "main"))
    as (_ & _ & _ & Hr & _).
  destruct (helm_source_options (Helm.mkAttrs "app" "local" "spec: 1" "spec.yaml" 0 ""))
    as (_ & _ & Hl & _ & _).
  destruct (helm_source_options (Helm.mkAttrs "app" "oci" "spec: 1" "spec.yaml" 5 "main"))
    as (_ & _ & _ & _ & Ho).
  destruct (Hr eq_refl) as (Hr1 & _ & _ & Hr4 & _).
  destruct (Hl (or_introl eq_refl)) as (Hl1 & _ & Hl3 & _ & Hl5).
  split; [exact Hr1|]. split; [exact Hr4|]. split; [exact Hl1|]. split; [exact Hl3|].
  split; [apply Hl5; cbn; intuition discriminate|].
  apply Ho; [cbn; intuition discriminate | discriminate].
Defined.

Lemma catalog_create_update_bodies_witness :
  let x := WorkflowCatalogItem.mkAttrs "item" ["a"] "d" "c" true false 3 "instance" "x" [4]
             "" "" "" "" "public" 2 in
  jget "name" (WorkflowCatalogItem.createCatalogItem x)
  = jget "name" (WorkflowCatalogItem.updateCatalogItem x) /\
  jget "formType" (WorkflowCatalogItem.updateCatalogItem x) = Some (JStr "form").
Proof.
  cbv zeta.
  destruct (catalog_create_update_bodies
              (WorkflowCatalogItem.mkAttrs "item" ["a"] "d" "c" true false 3 "instance" "x" [4]
                 "" "" "" "" "public" 2)) as (H1 & _ & _ & _ & _ & H6).
  split; [apply H1; discriminate | exact H6].
Defined.

Lemma tower_create_update_bodies_witness :
  let X := AnsibleTower.mkAttrs "tower" true "https://tower.example.com" "admin" "secret" 0 in
  let Y := AnsibleTower.mkAttrs "tower" true "https://tower.example.com" "admin" "secret" 3 in
  jget "servicePassword" (AnsibleTower.createIntegration X)
  = jget "servicePassword" (AnsibleTower.updateIntegration (mkRD "1" towerEmpty X)) /\
  jget "serviceUsername" (AnsibleTower.updateIntegration (mkRD "1" towerEmpty Y)) = None.
Proof.
  cbv zeta.
  destruct tower_create_update_bodies as (H1 & H2).
  split.
  - apply (H1 (mkRD "1" towerEmpty
                 (AnsibleTower.mkAttrs "tower" true "https://tower.example.com" "admin" "secret" 0)));
      vm_compute; reflexivity.
  - apply (H2 (mkRD "1" towerEmpty
                 (AnsibleTower.mkAttrs "tower" true "https://tower.example.com" "admin" "secret" 3))).
    discriminate.
Defined.

Lemma helm_update_roundtrip_witness :
  let X := Helm.mkAttrs "app" "repository" "" "charts/app" 5 "main" in
  let t := HelmServer.decode "git" 1 (Helm.requestBody helmEmpty) in
  let r := Helm.resourceHelmSpecTemplateUpdate _ (HelmServer.client "git")
             (mkWorld (mkRD "1" helmEmpty X) (mkStore 2 [t]) []) in
  fst r = [] /\ Id (w_d (snd r)) = "1" /\ New (w_d (snd r)) = X.
Proof.
  cbv zeta.
  apply (helm_update_roundtrip "git" 1 2 [HelmServer.decode "git" 1 (Helm.requestBody helmEmpty)] []
           (HelmServer.decode "git" 1 (Helm.requestBody helmEmpty)) helmEmpty
           (Helm.mkAttrs "app" "repository" "" "charts/app" 5 "main")).
  - left; reflexivity.
  - right; right; left; reflexivity.
  - vm_compute; reflexivity.
Defined.

Lemma tower_create_password_no_drift_witness :
  let X := AnsibleTower.mkAttrs "tower" true "https://tower.example.com" "admin" "secret" 0 in
  let r := AnsibleTower.resourceAnsibleTowerIntegrationCreate _ AnsibleServer.client
             (mkWorld (mkRD "" towerEmpty X) (mkStore 1 []) []) in
  fst r = [] /\
  AnsibleTower.username (New (w_d (snd r))) = "admin" /\
  passwordDiffSuppress (AnsibleTower.password (New (w_d (snd r)))) "secret" = true.
Proof.
  cbv zeta.
  apply (tower_create_password_no_drift 1 [] [] towerEmpty
           (AnsibleTower.mkAttrs "tower" true "https://tower.example.com" "admin" "secret" 0)).
  reflexivity.
Defined.
